(** * LS-8 emulator ([ls8/cpu.py]): a shallow embedding and its properties

    The Python class [CPU] keeps three lists (eight general registers, five
    internal registers, 256 memory cells) and a dispatch dictionary from
    opcode to bound method.  Python integers are unbounded, so every cell is
    a [Z]; list subscripts follow Python's rules (a negative subscript counts
    from the end, anything else out of range raises [IndexError]); a missing
    dictionary key raises [KeyError].  Methods mutate [self] and may raise
    half-way through, so a computation is a function from the machine state
    to the state it leaves behind together with a value or an exception. *)

From stdpp Require Import base option list gmap strings.
From Stdlib Require Import ZArith Lia Ascii.

Local Open Scope Z_scope.

(** ** Opcodes and flags (module-level constants of [cpu.py]) *)

Definition HLT  : Z := 0x01. (* 0b00000001 *)
Definition LDI  : Z := 0x82. (* 0b10000010 *)
Definition PRN  : Z := 0x47. (* 0b01000111 *)
Definition NOP  : Z := 0x00. (* 0b00000000 *)
Definition PUSH : Z := 0x45. (* 0b01000101 *)
Definition POP  : Z := 0x46. (* 0b01000110 *)
Definition CALL : Z := 0x50. (* 0b01010000 *)
Definition RET  : Z := 0x11. (* 0b00010001 *)
Definition JMP  : Z := 0x54. (* 0b01010100 *)
Definition JEQ  : Z := 0x55. (* 0b01010101 *)
Definition JNE  : Z := 0x56. (* 0b01010110 *)

Definition MUL  : Z := 0xA2. (* 0b10100010 *)
Definition ADD  : Z := 0xA0. (* 0b10100000 *)
Definition CMP  : Z := 0xA7. (* 0b10100111 *)

Definition EQUAL       : Z := 1. (* 0b00000001 *)
Definition LESSTHAN    : Z := 4. (* 0b00000100 *)
Definition GREATERTHAN : Z := 2. (* 0b00000010 *)

(** ** Python list subscripts *)

Module Py.

(** [index n i] is the position that subscript [i] denotes in a list of
    length [n], or [None] where Python raises [IndexError]. *)
Definition index (n : nat) (i : Z) : option nat :=
  if decide (0 <= i < Z.of_nat n) then Some (Z.to_nat i)
  else if decide (- Z.of_nat n <= i < 0) then Some (Z.to_nat (Z.of_nat n + i))
  else None.

(** [l[i]] *)
Definition getitem (l : list Z) (i : Z) : option Z :=
  match index (length l) i with
  | Some k => l !! k
  | None => None
  end.

(** [l[i] = v] *)
Definition setitem (l : list Z) (i : Z) (v : Z) : option (list Z) :=
  match index (length l) i with
  | Some k => Some (<[k := v]> l)
  | None => None
  end.

End Py.

(** ** Machine state and exceptions *)

Record CPU := mkCPU {
  registers : list Z;      (* self.registers, 8 cells *)
  int_registers : list Z;  (* self.int_registers: pc, ir, mar, mdr, fl *)
  ram : list Z;            (* self.ram, 256 cells *)
  stdout : list Z          (* values printed so far, oldest first *)
}.

Inductive exn :=
| IndexError                (* "list index out of range": carries no index *)
| KeyError (key : Z)        (* missing dictionary key *)
| UnsupportedALU.           (* Exception("Unsupported ALU operation") *)

Inductive outcome (A : Type) :=
| Ok (a : A)
| Raise (e : exn).
Arguments Ok {A} a.
Arguments Raise {A} e.

(** A method body: runs on a state, leaves a state, returns or raises. *)
Definition M (A : Type) : Type := CPU -> CPU * outcome A.

Definition mreturn {A} (a : A) : M A := fun c => (c, Ok a).
Definition raise {A} (e : exn) : M A := fun c => (c, Raise e).
Definition bind {A B} (m : M A) (k : A -> M B) : M B :=
  fun c => match m c with
           | (c', Ok a) => k a c'
           | (c', Raise e) => (c', Raise e)
           end.

Notation "x <~ m ;; k" := (bind m (fun x => k))
  (at level 100, m at next level, right associativity).
Notation "m ;;; k" := (bind m (fun _ => k))
  (at level 100, right associativity).

(** *** Attribute and subscript access *)

Definition with_registers (c : CPU) (l : list Z) : CPU :=
  mkCPU l (int_registers c) (ram c) (stdout c).
Definition with_int_registers (c : CPU) (l : list Z) : CPU :=
  mkCPU (registers c) l (ram c) (stdout c).
Definition with_ram (c : CPU) (l : list Z) : CPU :=
  mkCPU (registers c) (int_registers c) l (stdout c).
Definition with_stdout (c : CPU) (l : list Z) : CPU :=
  mkCPU (registers c) (int_registers c) (ram c) l.

(** [self.registers[i]] *)
Definition get_reg (i : Z) : M Z := fun c =>
  match Py.getitem (registers c) i with
  | Some v => (c, Ok v)
  | None => (c, Raise IndexError)
  end.

(** [self.registers[i] = v] *)
Definition set_reg (i v : Z) : M unit := fun c =>
  match Py.setitem (registers c) i v with
  | Some l => (with_registers c l, Ok tt)
  | None => (c, Raise IndexError)
  end.

(** [self.int_registers[i]] *)
Definition get_int (i : Z) : M Z := fun c =>
  match Py.getitem (int_registers c) i with
  | Some v => (c, Ok v)
  | None => (c, Raise IndexError)
  end.

(** [self.int_registers[i] = v] *)
Definition set_int (i v : Z) : M unit := fun c =>
  match Py.setitem (int_registers c) i v with
  | Some l => (with_int_registers c l, Ok tt)
  | None => (c, Raise IndexError)
  end.

(** The properties [pc], [ir], [fl] and [sp] with their setters. *)
Definition get_pc : M Z := get_int 0.
Definition set_pc (v : Z) : M unit := set_int 0 v.
Definition get_ir : M Z := get_int 1.
Definition set_ir (v : Z) : M unit := set_int 1 v.
Definition get_fl : M Z := get_int 4.
Definition set_fl (v : Z) : M unit := set_int 4 v.
Definition get_sp : M Z := get_reg 7.
Definition set_sp (v : Z) : M unit := set_reg 7 v.

(** [self.pc += n], [self.sp += n] *)
Definition pc_add (n : Z) : M unit := v <~ get_pc ;; set_pc (v + n).
Definition sp_add (n : Z) : M unit := v <~ get_sp ;; set_sp (v + n).

(** [print(v)] *)
Definition print (v : Z) : M unit := fun c =>
  (with_stdout c (stdout c ++ [v]), Ok tt).

(** ** Memory *)

(** [ram_read(mar)]: [return self.ram[mar]] *)
Definition ram_read (mar : Z) : M Z := fun c =>
  match Py.getitem (ram c) mar with
  | Some v => (c, Ok v)
  | None => (c, Raise IndexError)
  end.

(** [ram_write(mdr, mar)]: [self.ram[mar] = mdr] *)
Definition ram_write (mdr mar : Z) : M unit := fun c =>
  match Py.setitem (ram c) mar mdr with
  | Some l => (with_ram c l, Ok tt)
  | None => (c, Raise IndexError)
  end.

(** [load(program)]: copies the program to addresses 0, 1, 2, ... *)
Fixpoint load_from (address : Z) (program : list Z) : M unit :=
  match program with
  | [] => mreturn tt
  | instruction :: rest =>
      ram_write instruction address ;;; load_from (address + 1) rest
  end.
Definition load (program : list Z) : M unit := load_from 0 program.

(** ** Instruction handlers; each takes [op], [op_a], [op_b] *)

Abbreviation handler := (Z -> Z -> Z -> M unit).

Definition ldi : handler := fun op op_a op_b =>
  set_reg op_a op_b ;;; pc_add 3.

Definition prn : handler := fun op op_a op_b =>
  v <~ get_reg op_a ;; print v ;;; pc_add 2.

Definition nop : handler := fun op op_a op_b =>
  pc_add 1.

Definition push : handler := fun op op_a op_b =>
  sp_add (-1) ;;;
  mdr <~ get_reg op_a ;;
  mar <~ get_sp ;;
  ram_write mdr mar ;;;
  pc_add 2.

Definition pop : handler := fun op op_a op_b =>
  mar <~ get_sp ;;
  v <~ ram_read mar ;;
  set_reg op_a v ;;;
  sp_add 1 ;;;
  pc_add 2.

Definition call : handler := fun op op_a op_b =>
  sp_add (-1) ;;;
  p <~ get_pc ;;
  mar <~ get_sp ;;
  ram_write (p + 2) mar ;;;
  target <~ get_reg op_a ;;
  set_pc target.

Definition ret : handler := fun op op_a op_b =>
  mar <~ get_sp ;;
  v <~ ram_read mar ;;
  set_pc v ;;;
  sp_add 1.

Definition jmp : handler := fun op op_a op_b =>
  target <~ get_reg op_a ;; set_pc target.

Definition jeq : handler := fun op op_a op_b =>
  f <~ get_fl ;;
  if decide (f = EQUAL) then target <~ get_reg op_a ;; set_pc target
  else pc_add 2.

Definition jne : handler := fun op op_a op_b =>
  f <~ get_fl ;;
  if decide (f <> EQUAL) then target <~ get_reg op_a ;; set_pc target
  else pc_add 2.

(** ** Arithmetic logic unit *)

Definition alu : handler := fun op reg_a reg_b =>
  if decide (op = ADD) then
    x <~ get_reg reg_a ;; y <~ get_reg reg_b ;;
    set_reg reg_a (x + y) ;;; pc_add 3
  else if decide (op = MUL) then
    x <~ get_reg reg_a ;; y <~ get_reg reg_b ;;
    set_reg reg_a (x * y) ;;; pc_add 3
  else if decide (op = CMP) then
    (x <~ get_reg reg_a ;; y <~ get_reg reg_b ;;
     if decide (x = y) then set_fl EQUAL
     else
       x1 <~ get_reg reg_a ;; y1 <~ get_reg reg_b ;;
       if decide (x1 < y1) then set_fl LESSTHAN
       else
         x2 <~ get_reg reg_a ;; y2 <~ get_reg reg_b ;;
         if decide (x2 > y2) then set_fl GREATERTHAN
         else mreturn tt) ;;;
    pc_add 3
  else raise UnsupportedALU.

(** ** Construction and the dispatch dictionary *)

Definition init : CPU :=
  mkCPU (<[7%nat := 0xF4]> (replicate 8 0)) (replicate 5 0)
        (replicate 256 0) [].

(** [self.dispatch], filled in the order of [__init__]. *)
Definition dispatch : gmap Z handler :=
  <[JNE := jne]> (<[JEQ := jeq]> (<[JMP := jmp]> (<[CMP := alu]>
  (<[ADD := alu]> (<[RET := ret]> (<[CALL := call]> (<[POP := pop]>
  (<[PUSH := push]> (<[ADD := alu]> (<[MUL := alu]> (<[PRN := prn]>
  (<[LDI := ldi]> (<[NOP := nop]> ∅))))))))))))).

(** ** The fetch-decode-execute loop *)

(** One turn of the [while] loop of [run]; [false] is the [break] on HLT. *)
Definition step : M bool :=
  p <~ get_pc ;; i <~ ram_read p ;; set_ir i ;;;
  p1 <~ get_pc ;; operand_a <~ ram_read (p1 + 1) ;;
  p2 <~ get_pc ;; operand_b <~ ram_read (p2 + 2) ;;
  i1 <~ get_ir ;;
  if decide (i1 = HLT) then mreturn false
  else
    i2 <~ get_ir ;;
    match dispatch !! i2 with
    | None => raise (KeyError i2)
    | Some h => i3 <~ get_ir ;; h i3 operand_a operand_b ;;; mreturn true
    end.

Inductive status :=
| Halted               (* the loop left through HLT *)
| Raised (e : exn)     (* an exception left [run] *)
| Running.             (* the loop is still going after [fuel] turns *)

Fixpoint run (fuel : nat) (c : CPU) : CPU * status :=
  match fuel with
  | O => (c, Running)
  | S fuel' =>
      match step c with
      | (c', Ok true) => run fuel' c'
      | (c', Ok false) => (c', Halted)
      | (c', Raise e) => (c', Raised e)
      end
  end.

(** Load a program into a fresh machine and run it. *)
Definition boot (program : list Z) : CPU := (load program init).1.

(** ** Observations on a state *)

Definition reg (c : CPU) (i : Z) : option Z := Py.getitem (registers c) i.
Definition mem (c : CPU) (a : Z) : option Z := Py.getitem (ram c) a.
Definition pc_of (c : CPU) : option Z := Py.getitem (int_registers c) 0.
Definition ir_of (c : CPU) : option Z := Py.getitem (int_registers c) 1.
Definition fl_of (c : CPU) : option Z := Py.getitem (int_registers c) 4.
Definition sp_of (c : CPU) : option Z := reg c 7.

(** The three lists keep the lengths [__init__] gave them. *)
Definition wf (c : CPU) : Prop :=
  length (registers c) = 8%nat /\
  length (int_registers c) = 5%nat /\
  length (ram c) = 256%nat.


(** The opcode the next turn of the loop will fetch. *)
Definition fetched (c : CPU) : option Z :=
  match pc_of c with
  | Some p => mem c p
  | None => None
  end.

(** States a run of [program] goes through while no CMP has been executed:
    the freshly loaded machine, and every state a turn of the loop reaches
    from such a state by an instruction other than CMP. *)
Inductive before_first_cmp (program : list Z) : CPU -> Prop :=
| bfc_boot : before_first_cmp program (boot program)
| bfc_step c c' :
    before_first_cmp program c ->
    fetched c <> Some CMP ->
    step c = (c', Ok true) ->
    before_first_cmp program c'.

(** A method body keeps a property of the state, however it ends. *)
Definition preserves {A} (P : CPU -> Prop) (m : M A) : Prop :=
  forall c, P c -> P (m c).1.

(** ** Programs used below *)

(** LDI R0 250; LDI R1 10; ADD R0 R1; HLT *)
Definition prog_add_250_10 : list Z :=
  [LDI; 0; 250; LDI; 1; 10; ADD; 0; 1; HLT].

(** LDI R7 0; LDI R0 42; PUSH R0; HLT: the push happens at address -1. *)
Definition prog_push_at_minus_one : list Z :=
  [LDI; 7; 0; LDI; 0; 42; PUSH; 0; HLT].

(** LDI R0 254; JMP R0; then NOPs up to address 253 and the byte 0xFF,
    which is no opcode, at address 254. *)
Definition prog_unknown_at_254 : list Z :=
  [LDI; 0; 254; JMP; 0] ++ replicate 249 NOP ++ [0xFF].

(** PUSH with register operand 8; HLT *)
Definition prog_push_reg8 : list Z := [PUSH; 8; HLT].

(** LDI R7 244; PUSH R7; LDI R7 0; POP R7; HLT *)
Definition prog_push_pop_r7 : list Z :=
  [LDI; 7; 244; PUSH; 7; LDI; 7; 0; POP; 7; HLT].

(** NOP; JEQ R0; HLT *)
Definition prog_nop_jeq : list Z := [NOP; JEQ; 0; HLT].

(** ** The memory-address and memory-data properties *)

(** [mar] getter: [return self.int_registers[2]] *)
Definition get_mar : M Z := get_int 2.

(** [mar] setter: its body is the bare expression [self.int_registers[2]];
    the list is subscripted, the result dropped, [value] never used. *)
Definition set_mar (value : Z) : M unit := get_int 2 ;;; mreturn tt.

(** [mdr] getter: [return self.int_registers[3]] *)
Definition get_mdr : M Z := get_int 3.

(** [mdr] setter: the bare expression [self.int_registers[3]]. *)
Definition set_mdr (value : Z) : M unit := get_int 3 ;;; mreturn tt.

Definition mar_of (c : CPU) : option Z := Py.getitem (int_registers c) 2.
Definition mdr_of (c : CPU) : option Z := Py.getitem (int_registers c) 3.

(** Every exception a method body can raise satisfies [Q]. *)
Definition raises_only {A} (Q : exn -> Prop) (m : M A) : Prop :=
  forall c c' e, m c = (c', Raise e) -> Q e.

(** ** Tracing *)

(** Python's [%] operator on a format string and a tuple of integers, for
    the one conversion [trace] uses, [%02X]: upper-case hexadecimal, padded
    with zeros to two characters, a minus sign counting as one. *)

Definition hex_digit (d : Z) : ascii :=
  match d with
  | 0 => "0" | 1 => "1" | 2 => "2" | 3 => "3" | 4 => "4" | 5 => "5"
  | 6 => "6" | 7 => "7" | 8 => "8" | 9 => "9" | 10 => "A" | 11 => "B"
  | 12 => "C" | 13 => "D" | 14 => "E" | _ => "F"
  end%char.

Fixpoint hex_go (fuel : nat) (n : Z) (acc : string) : string :=
  match fuel with
  | O => acc
  | S fuel' =>
      let acc' := String (hex_digit (n mod 16)) acc in
      if decide (n / 16 = 0) then acc' else hex_go fuel' (n / 16) acc'
  end.

Definition hex_upper (n : Z) : string :=
  hex_go (S (Z.to_nat (Z.log2 n))) n "".

Definition format_02X (n : Z) : string :=
  if decide (n < 0) then "-" +:+ hex_upper (- n)
  else if decide (String.length (hex_upper n) < 2)%nat
       then "0" +:+ hex_upper n else hex_upper n.

(** What can leave [trace]: an exception of the machine, or one of the
    exceptions of the [%] operator. *)
Inductive py_error :=
| CoreError (e : exn)
| TypeError (msg : string)
| ValueError (msg : string).

(** [fmt % args]: each [%02X] takes the next argument; a conversion with no
    argument left and arguments left over at the end are both [TypeError]. *)
Fixpoint percent_format (fmt : string) (args : list Z) : string + py_error :=
  match fmt with
  | EmptyString =>
      match args with
      | [] => inl ""
      | _ :: _ =>
          inr (TypeError "not all arguments converted during string formatting")
      end
  | String "%" (String "0" (String "2" (String "X" rest))) =>
      match args with
      | [] => inr (TypeError "not enough arguments for format string")
      | a :: args' =>
          match percent_format rest args' with
          | inl s => inl (format_02X a +:+ s)
          | inr e => inr e
          end
      end
  | String "%" _ => inr (ValueError "unsupported format character")
  | String ch rest =>
      match percent_format rest args with
      | inl s => inl (String ch s)
      | inr e => inr e
      end
  end.

(** The tuple [(self.pc, self.fl, self.ir, self.ram_read(self.pc),
    self.ram_read(self.pc + 1), self.ram_read(self.pc + 2))]. *)
Definition trace_args : M (list Z) :=
  p <~ get_pc ;; f <~ get_fl ;; i <~ get_ir ;;
  p0 <~ get_pc ;; m0 <~ ram_read p0 ;;
  p1 <~ get_pc ;; m1 <~ ram_read (p1 + 1) ;;
  p2 <~ get_pc ;; m2 <~ ram_read (p2 + 2) ;;
  mreturn [p; f; i; m0; m1; m2].

(** [for i in range(8): print(" %02X" % self.registers[i], end='')] and
    the final [print()]; [text] is what [trace] has written so far. *)
Fixpoint trace_registers (indices : list Z) (c : CPU) (text : string)
    : CPU * string * option py_error :=
  match indices with
  | [] => (c, text +:+ String "010"%char "", None)
  | i :: rest =>
      match get_reg i c with
      | (c', Raise e) => (c', text, Some (CoreError e))
      | (c', Ok v) =>
          match percent_format " %02X" [v] with
          | inr e => (c', text, Some e)
          | inl s => trace_registers rest c' (text +:+ s)
          end
      end
  end.

(** [trace()]: the state it leaves, the text it has written to standard
    output, and the exception that left it, if any. *)
Definition trace (c : CPU) : CPU * string * option py_error :=
  match trace_args c with
  | (c1, Raise e) => (c1, "", Some (CoreError e))
  | (c1, Ok args) =>
      match percent_format "TRACE: %02X | %02X %02X %02X |" args with
      | inr e => (c1, "", Some e)
      | inl line => trace_registers [0; 1; 2; 3; 4; 5; 6; 7] c1 line
      end
  end.

(** * Facts about Python subscripts *)

Module PyFacts.
Import Py.

Lemma index_nonneg n i :
  0 <= i < Z.of_nat n -> index n i = Some (Z.to_nat i).
Proof. intros H. unfold index. rewrite decide_True; auto. Qed.

Lemma index_neg n i :
  - Z.of_nat n <= i < 0 -> index n i = Some (Z.to_nat (Z.of_nat n + i)).
Proof.
  intros H. unfold index.
  rewrite decide_False by lia. rewrite decide_True; auto.
Qed.

Lemma index_out n i :
  i < - Z.of_nat n \/ Z.of_nat n <= i -> index n i = None.
Proof. intros H. unfold index. rewrite !decide_False by lia. done. Qed.

Lemma index_Some_lt n i k : index n i = Some k -> (k < n)%nat.
Proof.
  unfold index. repeat case_decide; intros; simplify_eq; lia.
Qed.

Lemma index_Some_range n i k :
  index n i = Some k -> - Z.of_nat n <= i < Z.of_nat n.
Proof. unfold index. repeat case_decide; intros; simplify_eq; lia. Qed.

(** A negative subscript and the same subscript plus the length denote
    one cell. *)
Lemma index_wrap n i :
  - Z.of_nat n <= i < 0 -> index n i = index n (i + Z.of_nat n).
Proof.
  intros H. rewrite index_neg by lia. rewrite index_nonneg by lia.
  f_equal. lia.
Qed.

Lemma index_nonneg_ne n i j :
  0 <= i < Z.of_nat n -> 0 <= j < Z.of_nat n -> i <> j ->
  index n i <> index n j.
Proof.
  intros Hi Hj Hne. rewrite !index_nonneg by lia.
  intros [= E]. lia.
Qed.

Lemma getitem_in l i :
  - Z.of_nat (length l) <= i < Z.of_nat (length l) ->
  exists v, getitem l i = Some v.
Proof.
  intros H. unfold getitem.
  destruct (index (length l) i) as [k|] eqn:E.
  - apply lookup_lt_is_Some_2. eapply index_Some_lt; eauto.
  - unfold index in E. repeat case_decide; simplify_eq; lia.
Qed.

Lemma getitem_out l i :
  i < - Z.of_nat (length l) \/ Z.of_nat (length l) <= i ->
  getitem l i = None.
Proof. intros H. unfold getitem. by rewrite index_out. Qed.

Lemma getitem_wrap l i :
  - Z.of_nat (length l) <= i < 0 ->
  getitem l i = getitem l (i + Z.of_nat (length l)).
Proof. intros H. unfold getitem. by rewrite index_wrap. Qed.

Lemma setitem_in l i v :
  - Z.of_nat (length l) <= i < Z.of_nat (length l) ->
  exists l', setitem l i v = Some l'.
Proof.
  intros H. unfold setitem.
  destruct (index (length l) i) as [k|] eqn:E; eauto.
  unfold index in E. repeat case_decide; simplify_eq; lia.
Qed.

Lemma setitem_out l i v :
  i < - Z.of_nat (length l) \/ Z.of_nat (length l) <= i ->
  setitem l i v = None.
Proof. intros H. unfold setitem. by rewrite index_out. Qed.

Lemma setitem_wrap l i v :
  - Z.of_nat (length l) <= i < 0 ->
  setitem l i v = setitem l (i + Z.of_nat (length l)) v.
Proof. intros H. unfold setitem. by rewrite index_wrap. Qed.

Lemma length_setitem l i v l' :
  setitem l i v = Some l' -> length l' = length l.
Proof.
  unfold setitem. destruct (index _ _); intros; simplify_eq.
  apply length_insert.
Qed.

Lemma getitem_setitem_eq l i v l' :
  setitem l i v = Some l' -> getitem l' i = Some v.
Proof.
  intros H. pose proof (length_setitem _ _ _ _ H) as Hlen.
  unfold setitem in H. unfold getitem. rewrite Hlen.
  destruct (index (length l) i) as [k|] eqn:E; simplify_eq.
  apply list_lookup_insert_eq. eapply index_Some_lt; eauto.
Qed.

Lemma getitem_setitem_ne l i j v l' :
  setitem l i v = Some l' ->
  index (length l) i <> index (length l) j ->
  getitem l' j = getitem l j.
Proof.
  intros H Hne. pose proof (length_setitem _ _ _ _ H) as Hlen.
  unfold setitem in H. unfold getitem. rewrite Hlen.
  destruct (index (length l) i) as [k|] eqn:E; simplify_eq.
  destruct (index (length l) j) as [k'|] eqn:E'; [|done].
  apply list_lookup_insert_ne. congruence.
Qed.

End PyFacts.

(** * Running method bodies symbolically *)

Section Exec.
Context {A B : Type}.

Lemma bind_ok (m : M A) (k : A -> M B) c c1 a res :
  m c = (c1, Ok a) -> k a c1 = res -> bind m k c = res.
Proof. intros H1 H2. unfold bind. rewrite H1. exact H2. Qed.

Lemma bind_raise (m : M A) (k : A -> M B) c c1 e :
  m c = (c1, Raise e) -> bind m k c = (c1, Raise e).
Proof. intros H1. unfold bind. rewrite H1. reflexivity. Qed.

Lemma preserves_bind P (m : M A) (k : A -> M B) :
  preserves P m -> (forall a, preserves P (k a)) -> preserves P (bind m k).
Proof.
  intros Hm Hk c Hc. unfold bind.
  specialize (Hm c Hc). destruct (m c) as [c1 [a|e]]; cbn in *.
  - apply Hk, Hm.
  - exact Hm.
Qed.
End Exec.

Lemma preserves_mreturn {A} P (a : A) : preserves P (mreturn a).
Proof. intros c Hc. exact Hc. Qed.

Lemma preserves_raise {A} P e : preserves P (@raise A e).
Proof. intros c Hc. exact Hc. Qed.

(** The primitives on a state given field by field. *)
Section Prims.
Variables (regs ints cells out : list Z).
Let c := mkCPU regs ints cells out.

Lemma get_reg_mk i v :
  Py.getitem regs i = Some v -> get_reg i c = (c, Ok v).
Proof. intros H. unfold get_reg. cbn. rewrite H. reflexivity. Qed.

Lemma get_reg_mk_err i :
  Py.getitem regs i = None -> get_reg i c = (c, Raise IndexError).
Proof. intros H. unfold get_reg. cbn. rewrite H. reflexivity. Qed.

Lemma set_reg_mk i v regs' :
  Py.setitem regs i v = Some regs' ->
  set_reg i v c = (mkCPU regs' ints cells out, Ok tt).
Proof. intros H. unfold set_reg. cbn. rewrite H. reflexivity. Qed.

Lemma set_reg_mk_err i v :
  Py.setitem regs i v = None -> set_reg i v c = (c, Raise IndexError).
Proof. intros H. unfold set_reg. cbn. rewrite H. reflexivity. Qed.

Lemma get_int_mk i v :
  Py.getitem ints i = Some v -> get_int i c = (c, Ok v).
Proof. intros H. unfold get_int. cbn. rewrite H. reflexivity. Qed.

Lemma set_int_mk i v ints' :
  Py.setitem ints i v = Some ints' ->
  set_int i v c = (mkCPU regs ints' cells out, Ok tt).
Proof. intros H. unfold set_int. cbn. rewrite H. reflexivity. Qed.

Lemma ram_read_mk i v :
  Py.getitem cells i = Some v -> ram_read i c = (c, Ok v).
Proof. intros H. unfold ram_read. cbn. rewrite H. reflexivity. Qed.

Lemma ram_read_mk_err i :
  Py.getitem cells i = None -> ram_read i c = (c, Raise IndexError).
Proof. intros H. unfold ram_read. cbn. rewrite H. reflexivity. Qed.

Lemma ram_write_mk i v cells' :
  Py.setitem cells i v = Some cells' ->
  ram_write v i c = (mkCPU regs ints cells' out, Ok tt).
Proof. intros H. unfold ram_write. cbn. rewrite H. reflexivity. Qed.

Lemma ram_write_mk_err i v :
  Py.setitem cells i v = None -> ram_write v i c = (c, Raise IndexError).
Proof. intros H. unfold ram_write. cbn. rewrite H. reflexivity. Qed.
End Prims.

(** [prim] runs one primitive whose subscript is known to succeed, from a
    hypothesis or, on a list written out, by computation. *)
Ltac prim :=
  first
    [ eapply get_reg_mk; first [eassumption | reflexivity]
    | eapply set_reg_mk; first [eassumption | reflexivity]
    | eapply get_int_mk; first [eassumption | reflexivity]
    | eapply set_int_mk; first [eassumption | reflexivity]
    | eapply ram_read_mk; first [eassumption | reflexivity]
    | eapply ram_write_mk; first [eassumption | reflexivity]
    | reflexivity ].

(** [prim_err] closes a goal at the primitive that raises. *)
Ltac prim_err :=
  first
    [ eapply get_reg_mk_err; eassumption
    | eapply set_reg_mk_err; eassumption
    | eapply ram_read_mk_err; eassumption
    | eapply ram_write_mk_err; eassumption ].

Ltac mstep :=
  first [ eapply bind_ok; [ solve [repeat mstep] | cbv beta ] | prim ].

Ltac mfail :=
  first [ eapply bind_raise; prim_err | prim_err ].

Ltac munfold :=
  unfold pc_add, sp_add, get_pc, set_pc, get_ir, set_ir, get_fl, set_fl,
         get_sp, set_sp.

(** A well-formed state, field by field. *)
Lemma wf_inv c :
  wf c ->
  exists regs p i ma md f cells out,
    c = mkCPU regs [p; i; ma; md; f] cells out /\
    length regs = 8%nat /\ length cells = 256%nat.
Proof.
  destruct c as [regs ints cells out]. intros (Hr & Hi & Hm). cbn in *.
  destruct ints as [|p [|i [|ma [|md [|f [|]]]]]]; try discriminate.
  by exists regs, p, i, ma, md, f, cells, out.
Qed.

Lemma wf_init : wf init.
Proof. by repeat split. Qed.

(** One turn of the loop on a well-formed state, case by case. *)
Lemma step_mk regs p i ma md f cells out :
  step (mkCPU regs [p; i; ma; md; f] cells out) =
  match Py.getitem cells p with
  | None => (mkCPU regs [p; i; ma; md; f] cells out, Raise IndexError)
  | Some op =>
      let c1 := mkCPU regs [p; op; ma; md; f] cells out in
      match Py.getitem cells (p + 1) with
      | None => (c1, Raise IndexError)
      | Some a =>
          match Py.getitem cells (p + 2) with
          | None => (c1, Raise IndexError)
          | Some b =>
              if decide (op = HLT) then (c1, Ok false)
              else match dispatch !! op with
                   | None => (c1, Raise (KeyError op))
                   | Some h => bind (h op a b) (fun _ => mreturn true) c1
                   end
          end
      end
  end.
Proof.
  unfold step. munfold.
  destruct (Py.getitem cells p) as [op|] eqn:Hop.
  2: { mstep. mfail. }
  destruct (Py.getitem cells (p + 1)) as [a|] eqn:Ha.
  2: { do 4 mstep. mfail. }
  destruct (Py.getitem cells (p + 2)) as [b|] eqn:Hb.
  2: { do 6 mstep. mfail. }
  do 8 mstep. cbv zeta.
  destruct (decide (op = HLT)); [reflexivity|].
  mstep. destruct (dispatch !! op) as [h|]; [|reflexivity].
  mstep. reflexivity.
Qed.

(** * The handlers on a well-formed state

    Each lemma gives the state a handler leaves, field by field, when the
    subscripts it evaluates succeed. *)

Section Handlers.
Variables (regs cells out : list Z) (p i ma md f : Z).
Let c := mkCPU regs [p; i; ma; md; f] cells out.

Lemma nop_mk op a b :
  nop op a b c = (mkCPU regs [p + 1; i; ma; md; f] cells out, Ok tt).
Proof. unfold nop. munfold. repeat mstep. Qed.

Lemma ldi_mk op r v regs' :
  Py.setitem regs r v = Some regs' ->
  ldi op r v c = (mkCPU regs' [p + 3; i; ma; md; f] cells out, Ok tt).
Proof. intros H. unfold ldi. munfold. repeat mstep. Qed.

Lemma prn_mk op r b v :
  Py.getitem regs r = Some v ->
  prn op r b c = (mkCPU regs [p + 2; i; ma; md; f] cells (out ++ [v]), Ok tt).
Proof. intros H. unfold prn. munfold. repeat mstep. Qed.

Lemma jmp_mk op r b t :
  Py.getitem regs r = Some t ->
  jmp op r b c = (mkCPU regs [t; i; ma; md; f] cells out, Ok tt).
Proof. intros H. unfold jmp. munfold. repeat mstep. Qed.

Lemma push_mk op r b s regs1 v cells' :
  Py.getitem regs 7 = Some s ->
  Py.setitem regs 7 (s + -1) = Some regs1 ->
  Py.getitem regs1 r = Some v ->
  Py.setitem cells (s + -1) v = Some cells' ->
  push op r b c = (mkCPU regs1 [p + 2; i; ma; md; f] cells' out, Ok tt).
Proof.
  intros Hs H1 Hv Hw.
  pose proof (PyFacts.getitem_setitem_eq _ _ _ _ H1) as Hs1.
  unfold push. munfold. repeat mstep.
Qed.

Lemma pop_mk op r b s v regs1 s1 regs2 :
  Py.getitem regs 7 = Some s ->
  Py.getitem cells s = Some v ->
  Py.setitem regs r v = Some regs1 ->
  Py.getitem regs1 7 = Some s1 ->
  Py.setitem regs1 7 (s1 + 1) = Some regs2 ->
  pop op r b c = (mkCPU regs2 [p + 2; i; ma; md; f] cells out, Ok tt).
Proof. intros Hs Hv H1 Hs1 H2. unfold pop. munfold. repeat mstep. Qed.



Lemma jeq_mk op r b :
  jeq op r b c =
  if decide (f = EQUAL) then
    match Py.getitem regs r with
    | Some t => (mkCPU regs [t; i; ma; md; f] cells out, Ok tt)
    | None => (c, Raise IndexError)
    end
  else (mkCPU regs [p + 2; i; ma; md; f] cells out, Ok tt).
Proof.
  unfold jeq. munfold. mstep.
  destruct (decide (f = EQUAL)); [|repeat mstep].
  destruct (Py.getitem regs r) eqn:Hr; [repeat mstep | mfail].
Qed.

Lemma jne_mk op r b :
  jne op r b c =
  if decide (f <> EQUAL) then
    match Py.getitem regs r with
    | Some t => (mkCPU regs [t; i; ma; md; f] cells out, Ok tt)
    | None => (c, Raise IndexError)
    end
  else (mkCPU regs [p + 2; i; ma; md; f] cells out, Ok tt).
Proof.
  unfold jne. munfold. mstep.
  destruct (decide (f <> EQUAL)); [|repeat mstep].
  destruct (Py.getitem regs r) eqn:Hr; [repeat mstep | mfail].
Qed.

Lemma alu_add_mk a b x y regs' :
  Py.getitem regs a = Some x ->
  Py.getitem regs b = Some y ->
  Py.setitem regs a (x + y) = Some regs' ->
  alu ADD a b c = (mkCPU regs' [p + 3; i; ma; md; f] cells out, Ok tt).
Proof.
  intros Ha Hb H1. unfold alu. rewrite decide_True by done.
  munfold. repeat mstep.
Qed.

Lemma alu_mul_mk a b x y regs' :
  Py.getitem regs a = Some x ->
  Py.getitem regs b = Some y ->
  Py.setitem regs a (x * y) = Some regs' ->
  alu MUL a b c = (mkCPU regs' [p + 3; i; ma; md; f] cells out, Ok tt).
Proof.
  intros Ha Hb H1. unfold alu.
  rewrite decide_False by done. rewrite decide_True by done.
  munfold. repeat mstep.
Qed.

Lemma alu_cmp_mk a b x y :
  Py.getitem regs a = Some x ->
  Py.getitem regs b = Some y ->
  alu CMP a b c =
  (mkCPU regs
     [p + 3; i; ma; md;
      if decide (x = y) then EQUAL
      else if decide (x < y) then LESSTHAN else GREATERTHAN]
     cells out, Ok tt).
Proof.
  intros Ha Hb. unfold alu.
  rewrite !(decide_False (P := CMP = _)) by done.
  rewrite decide_True by done. munfold.
  destruct (decide (x = y)) as [E|E].
  { eapply bind_ok;
      [ do 2 mstep; rewrite decide_True by done; mstep
      | cbv beta; repeat mstep ]. }
  destruct (decide (x < y)) as [L|L].
  { eapply bind_ok;
      [ do 2 mstep; rewrite decide_False by done;
        do 2 mstep; rewrite decide_True by done; mstep
      | cbv beta; repeat mstep ]. }
  eapply bind_ok;
    [ do 2 mstep; rewrite decide_False by done;
      do 2 mstep; rewrite decide_False by done;
      do 2 mstep; rewrite decide_True by lia; mstep
    | cbv beta; repeat mstep ].
Qed.
End Handlers.

(** Register subscripts of an eight-cell list. *)
Lemma reg_get_in regs a :
  length regs = 8%nat -> -8 <= a < 8 -> exists x, Py.getitem regs a = Some x.
Proof. intros H Ha. apply PyFacts.getitem_in. rewrite H. lia. Qed.

Lemma reg_set_in regs a v :
  length regs = 8%nat -> -8 <= a < 8 ->
  exists regs', Py.setitem regs a v = Some regs' /\ length regs' = 8%nat.
Proof.
  intros H Ha. destruct (PyFacts.setitem_in regs a v) as [regs' E].
  { rewrite H. lia. }
  exists regs'. split; [done|].
  by rewrite (PyFacts.length_setitem _ _ _ _ E).
Qed.

Lemma reg_set_other regs a v regs' j :
  length regs = 8%nat -> 0 <= a < 8 -> 0 <= j < 8 -> j <> a ->
  Py.setitem regs a v = Some regs' ->
  Py.getitem regs' j = Py.getitem regs j.
Proof.
  intros H Ha Hj Hne E. eapply PyFacts.getitem_setitem_ne; [exact E|].
  apply PyFacts.index_nonneg_ne; rewrite ?H; lia.
Qed.

(** [wf_open H] replaces a well-formed state by its fields. *)
Ltac wf_open H :=
  let regs := fresh "regs" in
  let pc0 := fresh "pc0" in
  let ir0 := fresh "ir0" in
  let mar0 := fresh "mar0" in
  let mdr0 := fresh "mdr0" in
  let fl0 := fresh "fl0" in
  let cells := fresh "cells" in
  let out := fresh "out" in
  let Hregs := fresh "Hregs" in
  let Hcells := fresh "Hcells" in
  destruct (wf_inv _ H)
    as (regs & pc0 & ir0 & mar0 & mdr0 & fl0 & cells & out & -> & Hregs & Hcells);
  unfold sp_of, reg, mem in *;
  repeat match goal with
  | E : pc_of (mkCPU _ [?x; _; _; _; _] _ _) = Some ?v |- _ =>
      change (Some x = Some v) in E; injection E as E; subst x
  | E : ir_of (mkCPU _ [_; ?x; _; _; _] _ _) = Some ?v |- _ =>
      change (Some x = Some v) in E; injection E as E; subst x
  | E : fl_of (mkCPU _ [_; _; _; _; ?x] _ _) = Some ?v |- _ =>
      change (Some x = Some v) in E; injection E as E; subst x
  end;
  cbn [registers int_registers ram stdout] in *.

(** * ALU *)

(** C5. For register indices [a], [b] in 0..7, CMP leaves in the flags
    register EQUAL when [registers[a] == registers[b]], LESSTHAN when
    [registers[a] < registers[b]] and GREATERTHAN when
    [registers[a] > registers[b]]: always one of the three, chosen by the
    ordering alone, whatever the flags register held before; PC advances by
    3 and registers, memory and output are untouched. *)
Theorem C5_cmp_sets_exactly_one_flag (c : CPU) (a b x y p : Z) :
  wf c -> 0 <= a < 8 -> 0 <= b < 8 ->
  reg c a = Some x -> reg c b = Some y -> pc_of c = Some p ->
  exists c',
    alu CMP a b c = (c', Ok tt) /\
    fl_of c' = Some (if decide (x = y) then EQUAL
                     else if decide (x < y) then LESSTHAN else GREATERTHAN) /\
    (fl_of c' = Some EQUAL <-> x = y) /\
    (fl_of c' = Some LESSTHAN <-> x < y) /\
    (fl_of c' = Some GREATERTHAN <-> x > y) /\
    pc_of c' = Some (p + 3) /\
    registers c' = registers c /\ ram c' = ram c /\ stdout c' = stdout c.
Proof.
  intros Hwf Ha Hb Hx Hy Hp. wf_open Hwf.
  eexists. split; [eapply alu_cmp_mk; eassumption|].
  split; [reflexivity|].
  unfold fl_of. cbn [int_registers].
  change (Py.getitem [?q; ?j; ?k; ?l; ?m] 4) with (Some m).
  unfold EQUAL, LESSTHAN, GREATERTHAN.
  repeat split; try reflexivity; repeat case_decide;
    first [ intros [= ?]; lia | intros; (reflexivity || lia) ].
Qed.

(** CMP R0 R7 on a fresh machine: 0 < 244 gives LESSTHAN. *)
Lemma C5_cmp_witness :
  exists c',
    alu CMP 0 7 init = (c', Ok tt) /\
    fl_of c' = Some LESSTHAN /\
    (fl_of c' = Some EQUAL <-> 0 = 0xF4) /\
    (fl_of c' = Some LESSTHAN <-> 0 < 0xF4) /\
    (fl_of c' = Some GREATERTHAN <-> 0 > 0xF4) /\
    pc_of c' = Some (0 + 3) /\
    registers c' = registers init /\ ram c' = ram init /\
    stdout c' = stdout init.
Proof.
  apply (C5_cmp_sets_exactly_one_flag init 0 7 0 0xF4 0);
    [apply wf_init | lia | lia | reflexivity | reflexivity | reflexivity].
Defined.

(** C1, as the code has it.  For register indices [a], [b] in 0..7, ADD
    stores the exact integer [registers[a] + registers[b]] in
    [registers[a]] and MUL the exact integer product: nothing is reduced
    modulo 256, so the stored value is the sum or product modulo 256 only
    when it already lies below 256.  The other registers, the flags and the
    memory are untouched and PC advances by 3.  After LDI R0 250;
    LDI R1 10; ADD R0 R1 the register R0 holds 260. *)
Theorem C1_add_mul_store_exact_integer (c : CPU) (a b x y p : Z) :
  wf c -> 0 <= a < 8 -> 0 <= b < 8 ->
  reg c a = Some x -> reg c b = Some y -> pc_of c = Some p ->
  (exists c',
     alu ADD a b c = (c', Ok tt) /\
     reg c' a = Some (x + y) /\
     (0 <= x + y < 256 -> reg c' a = Some ((x + y) mod 256)) /\
     (forall j, 0 <= j < 8 -> j <> a -> reg c' j = reg c j) /\
     pc_of c' = Some (p + 3) /\ fl_of c' = fl_of c /\ ram c' = ram c) /\
  (exists c',
     alu MUL a b c = (c', Ok tt) /\
     reg c' a = Some (x * y) /\
     (0 <= x * y < 256 -> reg c' a = Some ((x * y) mod 256)) /\
     (forall j, 0 <= j < 8 -> j <> a -> reg c' j = reg c j) /\
     pc_of c' = Some (p + 3) /\ fl_of c' = fl_of c /\ ram c' = ram c) /\
  reg (run 4 (boot prog_add_250_10)).1 0 = Some 260.
Proof.
  intros Hwf Ha Hb Hx Hy Hp. wf_open Hwf.
  destruct (reg_set_in regs a (x + y)) as (ra & Hra & _); [done | lia |].
  destruct (reg_set_in regs a (x * y)) as (rm & Hrm & _); [done | lia |].
  split; [|split; [|by vm_compute]].
  - eexists. split; [eapply alu_add_mk; eassumption|].
    pose proof (PyFacts.getitem_setitem_eq _ _ _ _ Hra) as Hget.
    unfold reg; cbn [registers ram].
    repeat split; try done.
    + intros Hsmall. rewrite Z.mod_small by lia. exact Hget.
    + intros j Hj Hne. exact (reg_set_other _ _ _ _ _ Hregs Ha Hj Hne Hra).
  - eexists. split; [eapply alu_mul_mk; eassumption|].
    pose proof (PyFacts.getitem_setitem_eq _ _ _ _ Hrm) as Hget.
    unfold reg; cbn [registers ram].
    repeat split; try done.
    + intros Hsmall. rewrite Z.mod_small by lia. exact Hget.
    + intros j Hj Hne. exact (reg_set_other _ _ _ _ _ Hregs Ha Hj Hne Hrm).
Qed.

(** ADD R7 R7 and MUL R7 R7 on a fresh machine: 488 and 59536 are stored as they are. *)
Lemma C1_add_mul_witness :
  (exists c',
     alu ADD 7 7 init = (c', Ok tt) /\
     reg c' 7 = Some (0xF4 + 0xF4) /\
     (0 <= 0xF4 + 0xF4 < 256 -> reg c' 7 = Some ((0xF4 + 0xF4) mod 256)) /\
     (forall j, 0 <= j < 8 -> j <> 7 -> reg c' j = reg init j) /\
     pc_of c' = Some (0 + 3) /\ fl_of c' = fl_of init /\ ram c' = ram init) /\
  (exists c',
     alu MUL 7 7 init = (c', Ok tt) /\
     reg c' 7 = Some (0xF4 * 0xF4) /\
     (0 <= 0xF4 * 0xF4 < 256 -> reg c' 7 = Some ((0xF4 * 0xF4) mod 256)) /\
     (forall j, 0 <= j < 8 -> j <> 7 -> reg c' j = reg init j) /\
     pc_of c' = Some (0 + 3) /\ fl_of c' = fl_of init /\ ram c' = ram init) /\
  reg (run 4 (boot prog_add_250_10)).1 0 = Some 260.
Proof.
  apply (C1_add_mul_store_exact_integer init 7 7 0xF4 0xF4 0);
    [apply wf_init | lia | lia | reflexivity | reflexivity | reflexivity].
Defined.

(** C1 as stated fails: LDI R0 250; LDI R1 10; ADD R0 R1; HLT halts with
    260 in R0, not (250 + 10) mod 256 = 4, and 260 is no 8-bit value. *)
Lemma C1_add_250_10_is_260 :
  (run 4 (boot prog_add_250_10)).2 = Halted /\
  reg (run 4 (boot prog_add_250_10)).1 0 = Some 260 /\
  reg (run 4 (boot prog_add_250_10)).1 0 <> Some ((250 + 10) mod 256) /\
  ~ (0 <= 260 < 256).
Proof. vm_compute. repeat split; try discriminate. intros [_ H]. discriminate H. Qed.

(** * Conditional jumps *)

(** C8. With a register operand [r] in 0..7: JEQ sets PC to [registers[r]]
    when the flags register equals EQUAL and otherwise advances PC by 2;
    JNE sets PC to [registers[r]] when the flags register differs from EQUAL
    and otherwise advances PC by 2.  Neither changes a general register,
    the flags register, the memory or the output. *)
Theorem C8_conditional_jumps (c : CPU) (op r b f p t : Z) :
  wf c -> 0 <= r < 8 ->
  fl_of c = Some f -> pc_of c = Some p -> reg c r = Some t ->
  (exists c',
     jeq op r b c = (c', Ok tt) /\
     pc_of c' = Some (if decide (f = EQUAL) then t else p + 2) /\
     registers c' = registers c /\ fl_of c' = Some f /\
     ram c' = ram c /\ stdout c' = stdout c) /\
  (exists c',
     jne op r b c = (c', Ok tt) /\
     pc_of c' = Some (if decide (f <> EQUAL) then t else p + 2) /\
     registers c' = registers c /\ fl_of c' = Some f /\
     ram c' = ram c /\ stdout c' = stdout c).
Proof.
  intros Hwf Hr Hf Hp Ht. wf_open Hwf.
  rewrite jeq_mk, jne_mk, Ht.
  split; case_decide; eexists; (split; [reflexivity|]); by repeat split.
Qed.

(** JEQ R7 and JNE R7 on a fresh machine, whose flags register is 0. *)
Lemma C8_conditional_jumps_witness :
  (exists c',
     jeq JEQ 7 0 init = (c', Ok tt) /\
     pc_of c' = Some (0 + 2) /\
     registers c' = registers init /\ fl_of c' = Some 0 /\
     ram c' = ram init /\ stdout c' = stdout init) /\
  (exists c',
     jne JNE 7 0 init = (c', Ok tt) /\
     pc_of c' = Some 0xF4 /\
     registers c' = registers init /\ fl_of c' = Some 0 /\
     ram c' = ram init /\ stdout c' = stdout init).
Proof.
  apply (C8_conditional_jumps init JEQ 7 0 0 0 0xF4);
    [apply wf_init | lia | reflexivity | reflexivity | reflexivity].
Defined.

(** * Stack *)

(** C6, as the code has it.  For a register [r] in 0..6 (any general
    register but R7, which is the stack pointer itself), any value [v] and
    any starting stack pointer [sp0] whose slot [sp0 - 1] is a valid
    subscript of the memory, LDI r v; PUSH r; LDI r 0; POP r ends with
    [registers[r] == v] and SP back at [sp0]. *)
Theorem C6_push_pop_roundtrip (c : CPU) (r v sp0 b1 b2 : Z) :
  wf c -> 0 <= r < 7 ->
  sp_of c = Some sp0 -> -256 <= sp0 - 1 < 256 ->
  exists c',
    (ldi LDI r v ;;; push PUSH r b1 ;;; ldi LDI r 0 ;;; pop POP r b2) c
      = (c', Ok tt) /\
    reg c' r = Some v /\ sp_of c' = Some sp0.
Proof.
  intros Hwf Hr Hsp Hin. wf_open Hwf.
  assert (H7 : 0 <= 7 < 8) by lia.
  assert (Hr8 : 0 <= r < 8) by lia.
  assert (Hne : 7 <> r) by lia.
  (* LDI r v *)
  destruct (reg_set_in regs r v) as (regs1 & E1 & L1); [done | lia |].
  pose proof (reg_set_other _ _ _ _ _ Hregs Hr8 H7 Hne E1) as S1.
  rewrite Hsp in S1.
  (* PUSH r *)
  destruct (reg_set_in regs1 7 (sp0 + -1)) as (regs2 & E2 & L2); [done | lia |].
  pose proof (reg_set_other _ _ _ _ _ L1 H7 Hr8 (not_eq_sym Hne) E2) as V2.
  rewrite (PyFacts.getitem_setitem_eq _ _ _ _ E1) in V2.
  pose proof (PyFacts.getitem_setitem_eq _ _ _ _ E2) as S2.
  destruct (PyFacts.setitem_in cells (sp0 + -1) v) as [cells' W];
    [rewrite Hcells; lia|].
  (* LDI r 0 *)
  destruct (reg_set_in regs2 r 0) as (regs3 & E3 & L3); [done | lia |].
  pose proof (reg_set_other _ _ _ _ _ L2 Hr8 H7 Hne E3) as S3.
  rewrite S2 in S3.
  (* POP r *)
  pose proof (PyFacts.getitem_setitem_eq _ _ _ _ W) as R.
  destruct (reg_set_in regs3 r v) as (regs4 & E4 & L4); [done | lia |].
  pose proof (reg_set_other _ _ _ _ _ L3 Hr8 H7 Hne E4) as S4.
  rewrite S3 in S4.
  destruct (reg_set_in regs4 7 (sp0 + -1 + 1)) as (regs5 & E5 & L5);
    [done | lia |].
  pose proof (reg_set_other _ _ _ _ _ L4 H7 Hr8 (not_eq_sym Hne) E5) as V5.
  rewrite (PyFacts.getitem_setitem_eq _ _ _ _ E4) in V5.
  pose proof (PyFacts.getitem_setitem_eq _ _ _ _ E5) as S5.
  eexists. split.
  - eapply bind_ok; [eapply ldi_mk; exact E1 | cbv beta].
    eapply bind_ok; [eapply push_mk; [exact S1 | exact E2 | exact V2 | exact W]
                    | cbv beta].
    eapply bind_ok; [eapply ldi_mk; exact E3 | cbv beta].
    eapply pop_mk; [exact S3 | exact R | exact E4 | exact S4 | exact E5].
  - split; [exact V5|]. cbn [registers]. rewrite S5. f_equal. lia.
Qed.

(** LDI R0 42; PUSH R0; LDI R0 0; POP R0 on a fresh machine. *)
Lemma C6_push_pop_witness :
  exists c',
    (ldi LDI 0 42 ;;; push PUSH 0 0 ;;; ldi LDI 0 0 ;;; pop POP 0 0) init
      = (c', Ok tt) /\
    reg c' 0 = Some 42 /\ sp_of c' = Some 0xF4.
Proof.
  apply (C6_push_pop_roundtrip init 0 42 0xF4 0 0);
    [apply wf_init | lia | reflexivity | lia].
Defined.

(** C6 as stated fails for r = 7: LDI R7 244; PUSH R7; LDI R7 0; POP R7;
    HLT, started with SP = 244, touches only the addresses 243 and 0 and
    halts with 131 in R7, which is neither the pushed value nor the
    starting stack pointer. *)
Lemma C6_push_pop_r7_not_identity :
  sp_of (boot prog_push_pop_r7) = Some 244 /\
  (run 5 (boot prog_push_pop_r7)).2 = Halted /\
  reg (run 5 (boot prog_push_pop_r7)).1 7 = Some 131 /\
  reg (run 5 (boot prog_push_pop_r7)).1 7 <> Some 244 /\
  sp_of (run 5 (boot prog_push_pop_r7)).1 <> Some 244.
Proof. vm_compute. repeat split; discriminate. Qed.

(** * Subroutines *)




(** * Memory bounds *)

(** C2, as the code has it.  [ram_read] and [ram_write] subscript a Python
    list of 256 cells.  An address below -256 or above 255 raises
    [IndexError], which carries no address, and leaves the machine as it
    was; when such an address is the PC, the fetch ends [run] with that
    exception.  An address [neg] from -256 to -1 raises nothing: it reads
    or writes the cell at [neg + 256]. *)
Theorem C2_ram_access_outside_0_255 (c : CPU) (mar neg mdr : Z) :
  wf c -> mar < -256 \/ 256 <= mar -> -256 <= neg < 0 ->
  ram_read mar c = (c, Raise IndexError) /\
  ram_write mdr mar c = (c, Raise IndexError) /\
  (pc_of c = Some mar -> forall n, run (S n) c = (c, Raised IndexError)) /\
  ram_read neg c = ram_read (neg + 256) c /\
  ram_write mdr neg c = ram_write mdr (neg + 256) c /\
  (exists v, ram_read neg c = (c, Ok v) /\ mem c (neg + 256) = Some v).
Proof.
  intros Hwf Hout Hneg. wf_open Hwf.
  assert (Hg : Py.getitem cells mar = None)
    by (apply PyFacts.getitem_out; rewrite Hcells; lia).
  assert (Hs : Py.setitem cells mar mdr = None)
    by (apply PyFacts.setitem_out; rewrite Hcells; lia).
  assert (Hw : Py.getitem cells neg = Py.getitem cells (neg + 256)).
  { rewrite (PyFacts.getitem_wrap cells neg) by (rewrite Hcells; lia).
    by rewrite Hcells. }
  split; [by apply ram_read_mk_err|].
  split; [by apply ram_write_mk_err|].
  split.
  { intros Hp n. change (Some pc0 = Some mar) in Hp. injection Hp as ->.
    cbn [run]. by rewrite step_mk, Hg. }
  split; [unfold ram_read; cbn [ram]; by rewrite Hw|].
  split.
  { unfold ram_write. cbn [ram].
    rewrite (PyFacts.setitem_wrap cells neg) by (rewrite Hcells; lia).
    by rewrite Hcells. }
  destruct (PyFacts.getitem_in cells (neg + 256)) as [v Hv];
    [rewrite Hcells; lia|].
  exists v. split; [|exact Hv].
  apply ram_read_mk. by rewrite Hw.
Qed.

(** Addresses 256 and -1 on a fresh machine. *)
Lemma C2_ram_access_witness :
  ram_read 256 init = (init, Raise IndexError) /\
  ram_write 1 256 init = (init, Raise IndexError) /\
  (pc_of init = Some 256 ->
   forall n, run (S n) init = (init, Raised IndexError)) /\
  ram_read (-1) init = ram_read (-1 + 256) init /\
  ram_write 1 (-1) init = ram_write 1 (-1 + 256) init /\
  (exists v, ram_read (-1) init = (init, Ok v) /\
             mem init (-1 + 256) = Some v).
Proof.
  apply (C2_ram_access_outside_0_255 init 256 (-1) 1);
    [apply wf_init | lia | lia].
Defined.

(** C2 as stated fails at address -1: LDI R7 0; LDI R0 42; PUSH R0; HLT
    pushes at address -1; the run halts normally, the byte lands in cell
    255, and reading address -1 afterwards returns that cell. *)
Lemma C2_address_minus_one_wraps_to_255 :
  (run 4 (boot prog_push_at_minus_one)).2 = Halted /\
  sp_of (run 4 (boot prog_push_at_minus_one)).1 = Some (-1) /\
  mem (boot prog_push_at_minus_one) 255 = Some 0 /\
  mem (run 4 (boot prog_push_at_minus_one)).1 255 = Some 42 /\
  (ram_read (-1) (run 4 (boot prog_push_at_minus_one)).1).2 = Ok 42.
Proof. vm_compute. by repeat split. Qed.

(** * Decoding *)

(** C3, as the code has it.  When the opcode at PC is not HLT and has no
    entry in the dispatch dictionary, and the two operand fetches at PC+1
    and PC+2 succeed, the turn raises [KeyError] carrying the opcode and
    [run] ends with it; the exception does not carry the PC, but the
    machine it leaves still has PC at the fetch address and IR holding the
    opcode, and nothing else has changed: the instruction is not skipped. *)
Theorem C3_unknown_opcode_raises_KeyError (c : CPU) (p op a b : Z) :
  wf c -> pc_of c = Some p ->
  mem c p = Some op -> mem c (p + 1) = Some a -> mem c (p + 2) = Some b ->
  op <> HLT -> dispatch !! op = None ->
  exists c',
    step c = (c', Raise (KeyError op)) /\
    (forall n, run (S n) c = (c', Raised (KeyError op))) /\
    pc_of c' = Some p /\ ir_of c' = Some op /\ fl_of c' = fl_of c /\
    registers c' = registers c /\ ram c' = ram c /\ stdout c' = stdout c.
Proof.
  intros Hwf Hp Hop Ha Hb Hhlt Hnone. wf_open Hwf.
  assert (E : step (mkCPU regs [p; ir0; mar0; mdr0; fl0] cells out)
              = (mkCPU regs [p; op; mar0; mdr0; fl0] cells out,
                 Raise (KeyError op))).
  { rewrite step_mk, Hop, Ha, Hb. cbv zeta.
    rewrite decide_False by done. by rewrite Hnone. }
  eexists. split; [exact E|].
  split; [intros n; cbn [run]; by rewrite E|].
  by repeat split.
Qed.

(** The one-byte program 0xFF. *)
Lemma C3_unknown_opcode_witness :
  exists c',
    step (boot [0xFF]) = (c', Raise (KeyError 0xFF)) /\
    (forall n, run (S n) (boot [0xFF]) = (c', Raised (KeyError 0xFF))) /\
    pc_of c' = Some 0 /\ ir_of c' = Some 0xFF /\
    fl_of c' = fl_of (boot [0xFF]) /\
    registers c' = registers (boot [0xFF]) /\
    ram c' = ram (boot [0xFF]) /\ stdout c' = stdout (boot [0xFF]).
Proof.
  apply (C3_unknown_opcode_raises_KeyError (boot [0xFF]) 0 0xFF 0 0);
    [ by repeat split | reflexivity | reflexivity | reflexivity
    | reflexivity | discriminate | reflexivity ].
Defined.

(** C3 as stated fails when the opcode sits at address 254: LDI R0 254;
    JMP R0 reaches the byte 0xFF there, which is neither HLT nor a key of
    the dispatch dictionary, and the run ends with [IndexError] from the
    operand fetch at address 256, not with a decode failure. *)
Lemma C3_unknown_opcode_at_254_IndexError :
  (run 2 (boot prog_unknown_at_254)).2 = Running /\
  pc_of (run 2 (boot prog_unknown_at_254)).1 = Some 254 /\
  fetched (run 2 (boot prog_unknown_at_254)).1 = Some 0xFF /\
  0xFF <> HLT /\
  dispatch !! 0xFF = None /\
  (run 3 (boot prog_unknown_at_254)).2 = Raised IndexError /\
  (run 3 (boot prog_unknown_at_254)).2 <> Raised (KeyError 0xFF).
Proof. vm_compute. by repeat split. Qed.

(** * Register subscripts *)

(** The handlers on a register operand that is no subscript of the
    register list. *)
Section BadRegister.
Variables (regs cells out : list Z) (p i ma md f : Z) (r : Z).
Hypothesis Hregs : length regs = 8%nat.
Hypothesis Hbad : r < -8 \/ 8 <= r.
Let c := mkCPU regs [p; i; ma; md; f] cells out.

Lemma bad_get l : length l = 8%nat -> Py.getitem l r = None.
Proof. intros H. apply PyFacts.getitem_out. rewrite H. lia. Qed.

Lemma bad_set l v : length l = 8%nat -> Py.setitem l r v = None.
Proof. intros H. apply PyFacts.setitem_out. rewrite H. lia. Qed.

Lemma ldi_bad op v : ldi op r v c = (c, Raise IndexError).
Proof.
  pose proof (bad_set regs v Hregs). unfold ldi. mfail.
Qed.

Lemma prn_bad op b : prn op r b c = (c, Raise IndexError).
Proof. pose proof (bad_get regs Hregs). unfold prn. mfail. Qed.

Lemma jmp_bad op b : jmp op r b c = (c, Raise IndexError).
Proof. pose proof (bad_get regs Hregs). unfold jmp. mfail. Qed.

Lemma pop_bad op b s :
  Py.getitem regs 7 = Some s -> pop op r b c = (c, Raise IndexError).
Proof.
  intros Hs. unfold pop. munfold. mstep.
  destruct (Py.getitem cells s) as [v|] eqn:Hv; [|mfail].
  pose proof (bad_set regs v Hregs). mstep. mfail.
Qed.

Lemma alu_bad_a op b :
  op = ADD \/ op = MUL \/ op = CMP -> alu op r b c = (c, Raise IndexError).
Proof.
  pose proof (bad_get regs Hregs).
  intros [-> | [-> | ->]]; unfold alu.
  - rewrite decide_True by done. mfail.
  - rewrite decide_False by done. rewrite decide_True by done. mfail.
  - rewrite !(decide_False (P := CMP = _)) by done.
    rewrite decide_True by done. eapply bind_raise. mfail.
Qed.

Lemma alu_bad_b op a :
  op = ADD \/ op = MUL \/ op = CMP -> -8 <= a < 8 ->
  alu op a r c = (c, Raise IndexError).
Proof.
  pose proof (bad_get regs Hregs).
  intros Hop Ha. destruct (reg_get_in regs a Hregs Ha) as [x Hx].
  destruct Hop as [-> | [-> | ->]]; unfold alu.
  - rewrite decide_True by done. mstep. mfail.
  - rewrite decide_False by done. rewrite decide_True by done.
    mstep. mfail.
  - rewrite !(decide_False (P := CMP = _)) by done.
    rewrite decide_True by done. eapply bind_raise. mstep. mfail.
Qed.

(** PUSH has already moved SP when the register subscript raises. *)
Lemma push_bad op b s :
  Py.getitem regs 7 = Some s ->
  exists regs1,
    push op r b c = (mkCPU regs1 [p; i; ma; md; f] cells out,
                     Raise IndexError) /\
    Py.getitem regs1 7 = Some (s - 1) /\
    forall j, 0 <= j < 7 -> Py.getitem regs1 j = Py.getitem regs j.
Proof.
  intros Hs.
  destruct (reg_set_in regs 7 (s + -1)) as (regs1 & E1 & L1);
    [done | lia |].
  pose proof (bad_get regs1 L1).
  exists regs1. split; [|split].
  - unfold push. munfold. mstep. mfail.
  - exact (PyFacts.getitem_setitem_eq _ _ _ _ E1).
  - intros j Hj. eapply reg_set_other; [exact Hregs | | | | exact E1]; lia.
Qed.

(** CALL has moved SP, and stored the return address when SP - 1 is an
    address, when the register subscript raises. *)
Lemma call_bad op b s :
  Py.getitem regs 7 = Some s ->
  exists regs1 cells1,
    call op r b c = (mkCPU regs1 [p; i; ma; md; f] cells1 out,
                     Raise IndexError) /\
    Py.getitem regs1 7 = Some (s - 1) /\
    forall j, 0 <= j < 7 -> Py.getitem regs1 j = Py.getitem regs j.
Proof.
  intros Hs.
  destruct (reg_set_in regs 7 (s + -1)) as (regs1 & E1 & L1);
    [done | lia |].
  pose proof (bad_get regs1 L1).
  pose proof (PyFacts.getitem_setitem_eq _ _ _ _ E1) as S1.
  assert (O1 : forall j, 0 <= j < 7 ->
                 Py.getitem regs1 j = Py.getitem regs j).
  { intros j Hj.
    eapply reg_set_other; [exact Hregs | | | | exact E1]; lia. }
  destruct (Py.setitem cells (s + -1) (p + 2)) as [cells1|] eqn:W.
  - exists regs1, cells1. split; [|by split].
    unfold call. munfold. do 4 mstep. mfail.
  - exists regs1, cells. split; [|by split].
    unfold call. munfold. do 3 mstep. mfail.
Qed.
End BadRegister.

(** C4, as the code has it.  A register subscript is checked by the Python
    list alone: an index below -8 or above 7 raises [IndexError], which
    carries no index, and an index from -8 to -1 is accepted and names
    register index + 8.  With an index [r] below -8 or above 7 as register
    operand, LDI, PRN, POP, JMP, ADD, MUL and CMP raise [IndexError] and
    leave the machine exactly as it was; PUSH and CALL raise it too, after
    they have decremented SP (R0..R6, PC, IR and FL are as before); JEQ
    raises it when the flags register equals EQUAL and otherwise falls
    through without touching the register, and JNE the other way round. *)
Theorem C4_register_index_out_of_range (c : CPU) (op r v b s fl : Z) :
  wf c -> r < -8 \/ 8 <= r ->
  sp_of c = Some s -> fl_of c = Some fl ->
  get_reg r c = (c, Raise IndexError) /\
  set_reg r v c = (c, Raise IndexError) /\
  (forall k, -8 <= k < 0 ->
     get_reg k c = get_reg (k + 8) c /\ set_reg k v c = set_reg (k + 8) v c) /\
  ldi op r v c = (c, Raise IndexError) /\
  prn op r b c = (c, Raise IndexError) /\
  pop op r b c = (c, Raise IndexError) /\
  jmp op r b c = (c, Raise IndexError) /\
  alu ADD r b c = (c, Raise IndexError) /\
  alu MUL r b c = (c, Raise IndexError) /\
  alu CMP r b c = (c, Raise IndexError) /\
  (forall a, -8 <= a < 8 ->
     alu ADD a r c = (c, Raise IndexError) /\
     alu MUL a r c = (c, Raise IndexError) /\
     alu CMP a r c = (c, Raise IndexError)) /\
  (exists c',
     push op r b c = (c', Raise IndexError) /\
     sp_of c' = Some (s - 1) /\
     (forall j, 0 <= j < 7 -> reg c' j = reg c j) /\
     int_registers c' = int_registers c /\ ram c' = ram c) /\
  (exists c',
     call op r b c = (c', Raise IndexError) /\
     sp_of c' = Some (s - 1) /\
     (forall j, 0 <= j < 7 -> reg c' j = reg c j) /\
     int_registers c' = int_registers c) /\
  (fl = EQUAL -> jeq op r b c = (c, Raise IndexError)) /\
  (fl <> EQUAL -> (jeq op r b c).2 = Ok tt) /\
  (fl <> EQUAL -> jne op r b c = (c, Raise IndexError)) /\
  (fl = EQUAL -> (jne op r b c).2 = Ok tt).
Proof.
  intros Hwf Hbad Hsp Hfl. wf_open Hwf.
  pose proof (bad_get regs r Hregs Hbad regs Hregs) as Hg.
  pose proof (bad_set regs r Hregs Hbad regs v Hregs) as Hs.
  split; [by apply get_reg_mk_err|].
  split; [by apply set_reg_mk_err|].
  split.
  { intros k Hk. unfold get_reg, set_reg. cbn [registers].
    rewrite (PyFacts.getitem_wrap regs k) by (rewrite Hregs; lia).
    rewrite (PyFacts.setitem_wrap regs k) by (rewrite Hregs; lia).
    by rewrite Hregs. }
  split; [by apply ldi_bad|].
  split; [by apply prn_bad|].
  split; [by eapply pop_bad|].
  split; [by apply jmp_bad|].
  split; [apply alu_bad_a; auto|].
  split; [apply alu_bad_a; auto|].
  split; [apply alu_bad_a; auto|].
  split.
  { intros a Ha. repeat split; apply alu_bad_b; auto. }
  split.
  { destruct (push_bad regs cells out pc0 ir0 mar0 mdr0 fl r Hregs Hbad
                op b s Hsp) as (regs1 & E & S1 & O1).
    eexists. split; [exact E|]. by repeat split. }
  split.
  { destruct (call_bad regs cells out pc0 ir0 mar0 mdr0 fl r Hregs Hbad
                op b s Hsp) as (regs1 & cells1 & E & S1 & O1).
    eexists. split; [exact E|]. by repeat split. }
  rewrite jeq_mk, jne_mk, Hg.
  repeat split; intros Hf.
  - by rewrite decide_True.
  - by rewrite decide_False.
  - by rewrite decide_True.
  - rewrite decide_False; [done | by intros []].
Qed.

(** Register operand 8 on a fresh machine. *)
Lemma C4_register_index_witness :
  get_reg 8 init = (init, Raise IndexError) /\
  set_reg 8 1 init = (init, Raise IndexError) /\
  (forall k, -8 <= k < 0 ->
     get_reg k init = get_reg (k + 8) init /\
     set_reg k 1 init = set_reg (k + 8) 1 init) /\
  ldi LDI 8 1 init = (init, Raise IndexError) /\
  prn LDI 8 0 init = (init, Raise IndexError) /\
  pop LDI 8 0 init = (init, Raise IndexError) /\
  jmp LDI 8 0 init = (init, Raise IndexError) /\
  alu ADD 8 0 init = (init, Raise IndexError) /\
  alu MUL 8 0 init = (init, Raise IndexError) /\
  alu CMP 8 0 init = (init, Raise IndexError) /\
  (forall a, -8 <= a < 8 ->
     alu ADD a 8 init = (init, Raise IndexError) /\
     alu MUL a 8 init = (init, Raise IndexError) /\
     alu CMP a 8 init = (init, Raise IndexError)) /\
  (exists c',
     push LDI 8 0 init = (c', Raise IndexError) /\
     sp_of c' = Some (0xF4 - 1) /\
     (forall j, 0 <= j < 7 -> reg c' j = reg init j) /\
     int_registers c' = int_registers init /\ ram c' = ram init) /\
  (exists c',
     call LDI 8 0 init = (c', Raise IndexError) /\
     sp_of c' = Some (0xF4 - 1) /\
     (forall j, 0 <= j < 7 -> reg c' j = reg init j) /\
     int_registers c' = int_registers init) /\
  (0 = EQUAL -> jeq LDI 8 0 init = (init, Raise IndexError)) /\
  (0 <> EQUAL -> (jeq LDI 8 0 init).2 = Ok tt) /\
  (0 <> EQUAL -> jne LDI 8 0 init = (init, Raise IndexError)) /\
  (0 = EQUAL -> (jne LDI 8 0 init).2 = Ok tt).
Proof.
  apply (C4_register_index_out_of_range init LDI 8 1 0 0xF4 0);
    [apply wf_init | lia | reflexivity | reflexivity].
Defined.

(** C4 as stated fails for PUSH: PUSH with register operand 8 raises
    [IndexError], yet the instruction has already moved SP from 244 to
    243. *)
Lemma C4_push_reg8_moves_sp :
  sp_of (boot prog_push_reg8) = Some 244 /\
  fetched (boot prog_push_reg8) = Some PUSH /\
  mem (boot prog_push_reg8) 1 = Some 8 /\
  (run 1 (boot prog_push_reg8)).2 = Raised IndexError /\
  sp_of (run 1 (boot prog_push_reg8)).1 = Some 243 /\
  reg (run 1 (boot prog_push_reg8)).1 7 <> reg (boot prog_push_reg8) 7.
Proof. vm_compute. by repeat split. Qed.

(** * What the handlers leave alone

    A property of the state that survives a write to a general register, to
    PC, to IR, to a memory cell and a print survives every handler but CMP,
    however the handler ends. *)

Create HintDb pres discriminated.

Section Stable.
Variable P : CPU -> Prop.
Hypothesis P_set_reg : forall i v, preserves P (set_reg i v).
Hypothesis P_set_pc : forall v, preserves P (set_int 0 v).
Hypothesis P_set_ir : forall v, preserves P (set_int 1 v).
Hypothesis P_ram_write : forall v a, preserves P (ram_write v a).
Hypothesis P_print : forall v, preserves P (print v).

Lemma pres_get_reg i : preserves P (get_reg i).
Proof. intros c Hc. unfold get_reg. by destruct (Py.getitem _ _). Qed.

Lemma pres_get_int i : preserves P (get_int i).
Proof. intros c Hc. unfold get_int. by destruct (Py.getitem _ _). Qed.

Lemma pres_ram_read a : preserves P (ram_read a).
Proof. intros c Hc. unfold ram_read. by destruct (Py.getitem _ _). Qed.

Local Hint Resolve pres_get_reg pres_get_int pres_ram_read
  P_set_reg P_set_pc P_set_ir P_ram_write P_print
  preserves_mreturn preserves_raise : pres.

Ltac pres :=
  munfold;
  repeat first
    [ apply preserves_bind; [|intros ?]
    | case_decide
    | solve [auto with pres] ].

Lemma pres_pc_add n : preserves P (pc_add n).
Proof. pres. Qed.

Lemma pres_sp_add n : preserves P (sp_add n).
Proof. pres. Qed.

Lemma pres_nop op a b : preserves P (nop op a b).
Proof. unfold nop. pres. Qed.

Lemma pres_ldi op a b : preserves P (ldi op a b).
Proof. unfold ldi. pres. Qed.

Lemma pres_prn op a b : preserves P (prn op a b).
Proof. unfold prn. pres. Qed.

Lemma pres_push op a b : preserves P (push op a b).
Proof. unfold push. pres. Qed.

Lemma pres_pop op a b : preserves P (pop op a b).
Proof. unfold pop. pres. Qed.

Lemma pres_call op a b : preserves P (call op a b).
Proof. unfold call. pres. Qed.

Lemma pres_ret op a b : preserves P (ret op a b).
Proof. unfold ret. pres. Qed.

Lemma pres_jmp op a b : preserves P (jmp op a b).
Proof. unfold jmp. pres. Qed.

Lemma pres_jeq op a b : preserves P (jeq op a b).
Proof. unfold jeq. pres. Qed.

Lemma pres_jne op a b : preserves P (jne op a b).
Proof. unfold jne. pres. Qed.

Lemma pres_alu op a b : op <> CMP -> preserves P (alu op a b).
Proof.
  intros Hop. unfold alu.
  case_decide; [pres|]. case_decide; [pres|]. case_decide; [done|].
  apply preserves_raise.
Qed.

(** Every entry of the dispatch dictionary, called with its own opcode. *)
Lemma pres_dispatch op h a b :
  dispatch !! op = Some h -> op <> CMP -> preserves P (h op a b).
Proof.
  unfold dispatch. intros Hh Hop.
  repeat (rewrite lookup_insert in Hh; case_decide;
          [ injection Hh as <-;
            first [ by apply pres_alu | apply pres_nop | apply pres_ldi
                  | apply pres_prn | apply pres_push | apply pres_pop
                  | apply pres_call | apply pres_ret | apply pres_jmp
                  | apply pres_jeq | apply pres_jne ] | ]).
  by rewrite lookup_empty in Hh.
Qed.

(** A turn of the loop that does not fetch CMP. *)
Lemma pres_step c :
  wf c -> fetched c <> Some CMP -> P c -> P (step c).1.
Proof.
  intros Hwf Hf Hc. wf_open Hwf. rewrite step_mk.
  unfold fetched in Hf. cbn in Hf.
  change (Py.getitem cells pc0 <> Some CMP) in Hf.
  destruct (Py.getitem cells pc0) as [op|]; [|exact Hc].
  assert (Hc1 : P (mkCPU regs [pc0; op; mar0; mdr0; fl0] cells out))
    by exact (P_set_ir op _ Hc).
  cbv zeta.
  destruct (Py.getitem cells (pc0 + 1)) as [a|]; [|exact Hc1].
  destruct (Py.getitem cells (pc0 + 2)) as [b|]; [|exact Hc1].
  case_decide; [exact Hc1|].
  destruct (dispatch !! op) as [h|] eqn:Hh; [|exact Hc1].
  apply preserves_bind; [|intros ?; apply preserves_mreturn|exact Hc1].
  eapply pres_dispatch; [exact Hh|]. congruence.
Qed.

Lemma pres_load_from program :
  forall address, preserves P (load_from address program).
Proof.
  induction program as [|instruction rest IH]; intros address; cbn.
  - apply preserves_mreturn.
  - apply preserves_bind; [apply P_ram_write | intros _; apply IH].
Qed.
End Stable.

(** The flags register is such a property ... *)
Lemma fl_set_int l i v l' :
  i = 0 \/ i = 1 ->
  Py.setitem l i v = Some l' -> Py.getitem l' 4 = Py.getitem l 4.
Proof.
  intros Hi E. eapply PyFacts.getitem_setitem_ne; [exact E|].
  unfold Py.setitem in E.
  destruct (Py.index (length l) i) as [k|] eqn:Ei; [|done].
  pose proof (PyFacts.index_Some_range _ _ _ Ei) as Hrange.
  rewrite PyFacts.index_nonneg in Ei by lia. injection Ei as <-.
  destruct (Py.index (length l) 4) as [k4|] eqn:E4; [|done].
  pose proof (PyFacts.index_Some_range _ _ _ E4) as Hrange4.
  rewrite PyFacts.index_nonneg in E4 by lia. injection E4 as <-.
  intros [= ?]. lia.
Qed.

Section FlagsStable.
Variable v0 : option Z.
Let P := fun c => fl_of c = v0.

Lemma fl_set_reg i v : preserves P (set_reg i v).
Proof.
  intros c Hc. unfold set_reg. by destruct (Py.setitem _ _ _).
Qed.

Lemma fl_set_pc v : preserves P (set_int 0 v).
Proof.
  intros c Hc. unfold set_int.
  destruct (Py.setitem _ _ _) as [l|] eqn:E; [|done].
  unfold P, fl_of in *. cbn. rewrite <- Hc.
  eapply fl_set_int; [|exact E]. auto.
Qed.

Lemma fl_set_ir v : preserves P (set_int 1 v).
Proof.
  intros c Hc. unfold set_int.
  destruct (Py.setitem _ _ _) as [l|] eqn:E; [|done].
  unfold P, fl_of in *. cbn. rewrite <- Hc.
  eapply fl_set_int; [|exact E]. auto.
Qed.

Lemma fl_ram_write v a : preserves P (ram_write v a).
Proof.
  intros c Hc. unfold ram_write. by destruct (Py.setitem _ _ _).
Qed.

Lemma fl_print v : preserves P (print v).
Proof. intros c Hc. exact Hc. Qed.
End FlagsStable.

Lemma fl_dispatch op h a b c :
  dispatch !! op = Some h -> op <> CMP -> fl_of (h op a b c).1 = fl_of c.
Proof.
  intros Hh Hop.
  by apply (pres_dispatch (fun c' => fl_of c' = fl_of c)
              (fl_set_reg _) (fl_set_pc _) (fl_ram_write _) (fl_print _)
              op h a b Hh Hop c).
Qed.

(** ... and so is well-formedness. *)
Lemma wf_set_reg i v : preserves wf (set_reg i v).
Proof.
  intros c (Hr & Hi & Hm). unfold set_reg.
  destruct (Py.setitem _ _ _) as [l|] eqn:E; [|done].
  repeat split; try done. cbn. by rewrite (PyFacts.length_setitem _ _ _ _ E).
Qed.

Lemma wf_set_int i v : preserves wf (set_int i v).
Proof.
  intros c (Hr & Hi & Hm). unfold set_int.
  destruct (Py.setitem _ _ _) as [l|] eqn:E; [|done].
  repeat split; try done. cbn. by rewrite (PyFacts.length_setitem _ _ _ _ E).
Qed.

Lemma wf_ram_write v a : preserves wf (ram_write v a).
Proof.
  intros c (Hr & Hi & Hm). unfold ram_write.
  destruct (Py.setitem _ _ _) as [l|] eqn:E; [|done].
  repeat split; try done. cbn. by rewrite (PyFacts.length_setitem _ _ _ _ E).
Qed.

Lemma wf_print v : preserves wf (print v).
Proof. intros c Hc. exact Hc. Qed.

Lemma wf_boot program : wf (boot program).
Proof.
  apply (pres_load_from wf wf_ram_write). apply wf_init.
Qed.

Lemma fl_step c :
  wf c -> fetched c <> Some CMP -> fl_of (step c).1 = fl_of c.
Proof.
  intros Hwf Hf.
  by apply (pres_step (fun c' => fl_of c' = fl_of c)
              (fl_set_reg _) (fl_set_pc _) (fl_set_ir _)
              (fl_ram_write _) (fl_print _) c Hwf Hf).
Qed.

Lemma wf_step c : wf c -> fetched c <> Some CMP -> wf (step c).1.
Proof.
  intros Hwf Hf.
  by apply (pres_step wf wf_set_reg (wf_set_int 0) (wf_set_int 1)
              wf_ram_write wf_print c Hwf Hf).
Qed.

(** * The flags register *)

(** C9. For each of NOP, LDI, PRN, PUSH, POP, CALL, RET, JMP, JEQ, JNE, ADD
    and MUL, the dispatch dictionary has a handler, and from every starting
    state, with any operands and however the handler ends, the flags
    register afterwards is what it was before.  The same holds for a whole
    turn of the loop on a well-formed machine whenever the opcode it fetches
    is not CMP: only CMP writes the flags register. *)
Theorem C9_only_cmp_writes_flags (op a b : Z) (c : CPU) :
  op ∈ [NOP; LDI; PRN; PUSH; POP; CALL; RET; JMP; JEQ; JNE; ADD; MUL] ->
  (exists h, dispatch !! op = Some h /\ fl_of (h op a b c).1 = fl_of c) /\
  (wf c -> fetched c = Some op -> fl_of (step c).1 = fl_of c).
Proof.
  intros Hin.
  assert (Hop : is_Some (dispatch !! op) /\ op <> CMP).
  { repeat (apply elem_of_cons in Hin as [-> | Hin];
            [split; [by eexists | discriminate]|]).
    by apply elem_of_nil in Hin. }
  destruct Hop as [[h Hh] Hne]. split.
  - exists h. split; [exact Hh|]. by apply fl_dispatch.
  - intros Hwf Hf. apply fl_step; [exact Hwf|]. rewrite Hf. congruence.
Qed.

(** ADD R0 R7 as the first instruction of a program. *)
Lemma C9_only_cmp_writes_flags_witness :
  (exists h, dispatch !! ADD = Some h /\
             fl_of (h ADD 0 7 (boot [ADD; 0; 7; HLT])).1
             = fl_of (boot [ADD; 0; 7; HLT])) /\
  (wf (boot [ADD; 0; 7; HLT]) ->
   fetched (boot [ADD; 0; 7; HLT]) = Some ADD ->
   fl_of (step (boot [ADD; 0; 7; HLT])).1 = fl_of (boot [ADD; 0; 7; HLT])).
Proof.
  apply (C9_only_cmp_writes_flags ADD 0 7 (boot [ADD; 0; 7; HLT])).
  vm_compute. repeat constructor.
Defined.

(** Before the first CMP the machine is well formed and the flags register
    still holds the 0 it was constructed with. *)
Lemma before_first_cmp_inv program c :
  before_first_cmp program c -> wf c /\ fl_of c = Some 0.
Proof.
  induction 1 as [|c c' Hreach [Hwf Hfl] Hf Hstep].
  - split; [apply wf_boot|].
    apply (pres_load_from (fun c => fl_of c = Some 0) (fl_ram_write _)).
    reflexivity.
  - assert (E : c' = (step c).1) by (by rewrite Hstep). subst c'.
    split; [by apply wf_step|]. rewrite <- Hfl. by apply fl_step.
Qed.

(** C10. A freshly constructed machine has 0 in the flags register, and 0
    is none of EQUAL = 1, GREATERTHAN = 2, LESSTHAN = 4.  In every state a
    run of any program goes through before its first CMP the flags register
    is still 0, so there JEQ falls through (PC advances by 2), whatever its
    operand, and JNE jumps (PC becomes [registers[r]]), whatever that
    register holds. *)
Theorem C10_no_cmp_yet_jeq_falls_jne_jumps
    (program : list Z) (c : CPU) (op r b p : Z) :
  before_first_cmp program c -> pc_of c = Some p ->
  fl_of init = Some 0 /\
  EQUAL = 1 /\ GREATERTHAN = 2 /\ LESSTHAN = 4 /\
  0 <> EQUAL /\ 0 <> GREATERTHAN /\ 0 <> LESSTHAN /\
  fl_of c = Some 0 /\
  (exists c', jeq op r b c = (c', Ok tt) /\ pc_of c' = Some (p + 2)) /\
  (forall t, reg c r = Some t ->
     exists c', jne op r b c = (c', Ok tt) /\ pc_of c' = Some t).
Proof.
  intros Hreach Hp. destruct (before_first_cmp_inv _ _ Hreach) as [Hwf Hfl].
  do 7 (split; [done|]). split; [exact Hfl|].
  wf_open Hwf. rewrite jeq_mk, jne_mk.
  rewrite decide_False by done. rewrite decide_True by done.
  split; [by eexists|].
  intros t Ht. rewrite Ht. by eexists.
Qed.

(** NOP; JEQ R0; HLT after its first turn: PC is 1 and no CMP has run. *)
Lemma C10_no_cmp_yet_witness :
  fl_of init = Some 0 /\
  EQUAL = 1 /\ GREATERTHAN = 2 /\ LESSTHAN = 4 /\
  0 <> EQUAL /\ 0 <> GREATERTHAN /\ 0 <> LESSTHAN /\
  fl_of (step (boot prog_nop_jeq)).1 = Some 0 /\
  (exists c', jeq JEQ 0 HLT (step (boot prog_nop_jeq)).1 = (c', Ok tt) /\
              pc_of c' = Some (1 + 2)) /\
  (forall t, reg (step (boot prog_nop_jeq)).1 0 = Some t ->
     exists c', jne JEQ 0 HLT (step (boot prog_nop_jeq)).1 = (c', Ok tt) /\
                pc_of c' = Some t).
Proof.
  apply (C10_no_cmp_yet_jeq_falls_jne_jumps prog_nop_jeq
           (step (boot prog_nop_jeq)).1 JEQ 0 HLT 1).
  - apply (bfc_step prog_nop_jeq (boot prog_nop_jeq)).
    + apply bfc_boot.
    + vm_compute. discriminate.
    + vm_compute. reflexivity.
  - reflexivity.
Defined.

(** * End-to-end scenarios *)

(** LDI R0 8; LDI R1 9; ADD R0 R1; PRN R0; HLT prints 17 once and halts. *)
Example e2e_add :
  (run 5 (boot [0x82; 0; 8; 0x82; 1; 9; 0xA0; 0; 1; 0x47; 0; 0x01])).2
    = Halted /\
  stdout (run 5 (boot [0x82; 0; 8; 0x82; 1; 9; 0xA0; 0; 1; 0x47; 0; 0x01])).1
    = [17].
Proof. vm_compute. by split. Qed.

(** LDI R0 1; LDI R1 2; LDI R2 3; PUSH R0; PUSH R1; PUSH R2; POP R3; PRN R3;
    POP R3; PRN R3; POP R3; PRN R3; HLT prints the three values in reverse
    and leaves SP where it started. *)
Example e2e_push_pop_reverse :
  (run 13 (boot [LDI; 0; 1; LDI; 1; 2; LDI; 2; 3;
                 PUSH; 0; PUSH; 1; PUSH; 2;
                 POP; 3; PRN; 3; POP; 3; PRN; 3; POP; 3; PRN; 3; HLT])).2
    = Halted /\
  stdout (run 13 (boot [LDI; 0; 1; LDI; 1; 2; LDI; 2; 3;
                        PUSH; 0; PUSH; 1; PUSH; 2;
                        POP; 3; PRN; 3; POP; 3; PRN; 3; POP; 3; PRN; 3;
                        HLT])).1
    = [3; 2; 1] /\
  sp_of (run 13 (boot [LDI; 0; 1; LDI; 1; 2; LDI; 2; 3;
                       PUSH; 0; PUSH; 1; PUSH; 2;
                       POP; 3; PRN; 3; POP; 3; PRN; 3; POP; 3; PRN; 3;
                       HLT])).1
    = Some 0xF4.
Proof. vm_compute. by repeat split. Qed.

(** LDI r v then PRN r prints exactly [v], for every register and value. *)
Lemma ldi_prn_prints (c : CPU) (r v b : Z) :
  wf c -> 0 <= r < 8 ->
  exists c', (ldi LDI r v ;;; prn PRN r b) c = (c', Ok tt) /\
             stdout c' = stdout c ++ [v].
Proof.
  intros Hwf Hr. wf_open Hwf.
  destruct (reg_set_in regs r v) as (regs1 & E1 & L1); [done | lia |].
  pose proof (PyFacts.getitem_setitem_eq _ _ _ _ E1) as G1.
  eexists. split.
  - eapply bind_ok; [eapply ldi_mk; exact E1 | cbv beta].
    eapply prn_mk. exact G1.
  - reflexivity.
Qed.

(** * Beyond the single instruction: the dispatch dictionary and whole runs *)

(** The entries of the dispatch dictionary. *)
Lemma dispatch_inv op (h : handler) :
  dispatch !! op = Some h ->
  (op, h) ∈ [(NOP, nop); (LDI, ldi); (PRN, prn); (MUL, alu); (ADD, alu);
             (PUSH, push); (POP, pop); (CALL, call); (RET, ret);
             (CMP, alu); (JMP, jmp); (JEQ, jeq); (JNE, jne)].
Proof.
  unfold dispatch. intros Hh.
  repeat (rewrite lookup_insert in Hh; case_decide;
          [ injection Hh as <-; subst op; repeat constructor | ]).
  by rewrite lookup_empty in Hh.
Qed.

(** A property kept by the write to IR and by the handler of the fetched
    opcode is kept by the whole turn. *)
Lemma step_via (P : CPU -> Prop) c :
  wf c ->
  (forall v, preserves P (set_int 1 v)) ->
  (forall op h a b,
     fetched c = Some op -> dispatch !! op = Some h ->
     preserves P (h op a b)) ->
  P c -> P (step c).1.
Proof.
  intros Hwf Hir Hh Hc. wf_open Hwf. rewrite step_mk.
  change (fetched (mkCPU regs [pc0; ir0; mar0; mdr0; fl0] cells out))
    with (Py.getitem cells pc0) in Hh.
  destruct (Py.getitem cells pc0) as [op|]; [|exact Hc].
  assert (Hc1 : P (mkCPU regs [pc0; op; mar0; mdr0; fl0] cells out))
    by exact (Hir op _ Hc).
  cbv zeta.
  destruct (Py.getitem cells (pc0 + 1)) as [a|]; [|exact Hc1].
  destruct (Py.getitem cells (pc0 + 2)) as [b|]; [|exact Hc1].
  case_decide; [exact Hc1|].
  destruct (dispatch !! op) as [h|] eqn:Hop; [|exact Hc1].
  apply preserves_bind; [|intros ?; apply preserves_mreturn|exact Hc1].
  by apply Hh.
Qed.

Lemma pres_alu_cmp (P : CPU -> Prop) a b :
  (forall v, preserves P (set_int 0 v)) ->
  (forall v, preserves P (set_int 4 v)) ->
  preserves P (alu CMP a b).
Proof.
  intros H0 H4. unfold alu.
  rewrite !(decide_False (P := CMP = _)) by done.
  rewrite decide_True by done. munfold.
  repeat first
    [ apply preserves_bind; [|intros ?]
    | case_decide
    | apply pres_get_reg | apply pres_get_int
    | apply H0 | apply H4 | apply preserves_mreturn ].
Qed.

(** A property that survives every primitive write survives every handler
    of the dispatch dictionary, every turn and every run. *)
Section StableAll.
Variable P : CPU -> Prop.
Hypothesis P_set_reg : forall i v, preserves P (set_reg i v).
Hypothesis P_set_int : forall i v, preserves P (set_int i v).
Hypothesis P_ram_write : forall v a, preserves P (ram_write v a).
Hypothesis P_print : forall v, preserves P (print v).

Lemma pres_dispatch_all op h a b :
  dispatch !! op = Some h -> preserves P (h op a b).
Proof.
  intros Hh. destruct (decide (op = CMP)) as [->|Hne].
  - assert (E : dispatch !! CMP = Some alu) by reflexivity.
    assert (h = alu) as -> by congruence.
    by apply pres_alu_cmp.
  - by eapply pres_dispatch.
Qed.

Lemma pres_step_all c : wf c -> P c -> P (step c).1.
Proof.
  intros Hwf Hc. apply step_via; [done | apply P_set_int | | done].
  intros op h a b _ Hh. by apply pres_dispatch_all.
Qed.
End StableAll.

Lemma wf_step_all c : wf c -> wf (step c).1.
Proof.
  intros Hwf.
  by apply (pres_step_all wf wf_set_reg wf_set_int wf_ram_write wf_print).
Qed.

Lemma run_S n c :
  run (S n) c =
  match step c with
  | (c', Ok true) => run n c'
  | (c', Ok false) => (c', Halted)
  | (c', Raise e) => (c', Raised e)
  end.
Proof. reflexivity. Qed.

Lemma pres_run (P : CPU -> Prop) :
  (forall c, wf c -> P c -> P (step c).1) ->
  forall n c, wf c -> P c -> wf (run n c).1 /\ P (run n c).1.
Proof.
  intros Hstep n. induction n as [|n IH]; intros c Hwf Hc; [done|].
  rewrite run_S.
  pose proof (wf_step_all c Hwf) as Hwf'.
  pose proof (Hstep c Hwf Hc) as Hc'.
  destruct (step c) as [c' [[|]|e]]; cbn [fst] in *; [by apply IH | done | done].
Qed.

(** X1. The three lists of the machine never change length: from a machine
    with 8 registers, 5 internal registers and 256 memory cells, every run,
    however long and however it ends, leaves a machine with 8 registers,
    5 internal registers and 256 memory cells. *)
Theorem X1_run_keeps_list_lengths (n : nat) (c : CPU) :
  wf c -> wf (run n c).1.
Proof. intros Hwf. by apply (pres_run wf (fun c _ => wf_step_all c)). Qed.

(** Three turns of LDI R0 250; LDI R1 10; ADD R0 R1; HLT. *)
Lemma X1_run_keeps_list_lengths_witness :
  wf (run 3 (boot prog_add_250_10)).1.
Proof. apply X1_run_keeps_list_lengths. apply wf_boot. Defined.


Lemma int_set_other l i j v l' :
  0 <= i -> 0 <= j -> i <> j ->
  Py.setitem l i v = Some l' -> Py.getitem l' j = Py.getitem l j.
Proof.
  intros Hi Hj Hne E. eapply PyFacts.getitem_setitem_ne; [exact E|].
  unfold Py.setitem in E.
  destruct (Py.index (length l) i) as [k|] eqn:Ei; [|done].
  pose proof (PyFacts.index_Some_range _ _ _ Ei) as Hrange.
  rewrite PyFacts.index_nonneg in Ei by lia. injection Ei as <-.
  destruct (Py.index (length l) j) as [kj|] eqn:Ej; [|done].
  pose proof (PyFacts.index_Some_range _ _ _ Ej) as Hrangej.
  rewrite PyFacts.index_nonneg in Ej by lia. injection Ej as <-.
  intros [= ?]. lia.
Qed.

(** The whole turn leaves internal register [k] alone unless [k] is PC, IR
    or FL. *)
Lemma int_other_step (k : Z) c :
  0 <= k -> k <> 0 -> k <> 1 -> k <> 4 -> wf c ->
  Py.getitem (int_registers (step c).1) k = Py.getitem (int_registers c) k.
Proof.
  intros Hk H0 H1 H4 Hwf.
  pose (P := fun c' : CPU =>
               Py.getitem (int_registers c') k = Py.getitem (int_registers c) k).
  assert (Hint : forall i v, i = 0 \/ i = 1 \/ i = 4 -> preserves P (set_int i v)).
  { intros i v Hi c0 Hc0. unfold set_int.
    destruct (Py.setitem _ _ _) as [l|] eqn:E; [|done].
    unfold P in *. cbn. rewrite <- Hc0.
    eapply int_set_other; [| | |exact E]; lia. }
  assert (Hreg : forall i v, preserves P (set_reg i v)).
  { intros i v c0 Hc0. unfold set_reg. by destruct (Py.setitem _ _ _). }
  assert (Hram : forall v a, preserves P (ram_write v a)).
  { intros v a c0 Hc0. unfold ram_write. by destruct (Py.setitem _ _ _). }
  assert (Hprint : forall v, preserves P (print v)) by (by intros v c0 Hc0).
  apply (step_via P); [done | intros v; apply Hint; auto | | done].
  intros op h a b _ Hh. destruct (decide (op = CMP)) as [->|Hne].
  - assert (E : dispatch !! CMP = Some alu) by reflexivity.
    assert (h = alu) as -> by congruence.
    apply pres_alu_cmp; intros v; apply Hint; auto.
  - eapply pres_dispatch; eauto.
Qed.

(** X3. The memory-address and memory-data registers are dead state.  Their
    setters store nothing: on a well-formed machine [mar = v] and [mdr = v]
    return normally and leave the machine exactly as it was, so reading
    back gives the old value, not [v].  And no turn of the loop writes
    them either: after any run they hold what they held at the start. *)
Theorem X3_mar_mdr_never_written (n : nat) (c : CPU) (v : Z) :
  wf c ->
  set_mar v c = (c, Ok tt) /\
  set_mdr v c = (c, Ok tt) /\
  (exists old, (set_mar v ;;; get_mar) c = (c, Ok old) /\
               get_mar c = (c, Ok old)) /\
  (exists old, (set_mdr v ;;; get_mdr) c = (c, Ok old) /\
               get_mdr c = (c, Ok old)) /\
  mar_of (run n c).1 = mar_of c /\
  mdr_of (run n c).1 = mdr_of c.
Proof.
  intros Hwf.
  assert (Hrun : forall k, 0 <= k -> k <> 0 -> k <> 1 -> k <> 4 ->
            Py.getitem (int_registers (run n c).1) k
            = Py.getitem (int_registers c) k).
  { intros k Hk H0 H1 H4.
    apply (pres_run (fun c' => Py.getitem (int_registers c') k
                               = Py.getitem (int_registers c) k));
      [|done|done].
    intros c0 Hwf0 Hc0. rewrite <- Hc0. by apply int_other_step. }
  repeat split; try (apply Hrun; lia).
  all: wf_open Hwf; try done.
  - exists mar0. split; [|done]. unfold set_mar, get_mar. repeat mstep.
  - exists mdr0. split; [|done]. unfold set_mdr, get_mdr. repeat mstep.
Qed.

(** Writing 99 to MAR and MDR of a fresh machine, and one turn of it. *)
Lemma X3_mar_mdr_never_written_witness :
  set_mar 99 init = (init, Ok tt) /\
  set_mdr 99 init = (init, Ok tt) /\
  (exists old, (set_mar 99 ;;; get_mar) init = (init, Ok old) /\
               get_mar init = (init, Ok old)) /\
  (exists old, (set_mdr 99 ;;; get_mdr) init = (init, Ok old) /\
               get_mdr init = (init, Ok old)) /\
  mar_of (run 1 init).1 = mar_of init /\
  mdr_of (run 1 init).1 = mdr_of init.
Proof. apply (X3_mar_mdr_never_written 1 init 99). apply wf_init. Defined.

(** * How a run can end *)

Section RaisesOnly.
Context {A B : Type}.

Lemma ro_bind (Q : exn -> Prop) (m : M A) (k : A -> M B) :
  raises_only Q m -> (forall a, raises_only Q (k a)) -> raises_only Q (bind m k).
Proof.
  intros Hm Hk c c' e. unfold bind.
  destruct (m c) as [c1 [a|e1]] eqn:E.
  - apply Hk.
  - intros [= <- <-]. by eapply Hm.
Qed.
End RaisesOnly.

Lemma ro_mreturn {A} Q (a : A) : raises_only Q (mreturn a).
Proof. by intros c c' e. Qed.

Lemma ro_get_reg i : raises_only (eq IndexError) (get_reg i).
Proof.
  intros c c' e. unfold get_reg. destruct (Py.getitem _ _); congruence.
Qed.

Lemma ro_set_reg i v : raises_only (eq IndexError) (set_reg i v).
Proof.
  intros c c' e. unfold set_reg. destruct (Py.setitem _ _ _); congruence.
Qed.

Lemma ro_get_int i : raises_only (eq IndexError) (get_int i).
Proof.
  intros c c' e. unfold get_int. destruct (Py.getitem _ _); congruence.
Qed.

Lemma ro_set_int i v : raises_only (eq IndexError) (set_int i v).
Proof.
  intros c c' e. unfold set_int. destruct (Py.setitem _ _ _); congruence.
Qed.

Lemma ro_ram_read a : raises_only (eq IndexError) (ram_read a).
Proof.
  intros c c' e. unfold ram_read. destruct (Py.getitem _ _); congruence.
Qed.

Lemma ro_ram_write v a : raises_only (eq IndexError) (ram_write v a).
Proof.
  intros c c' e. unfold ram_write. destruct (Py.setitem _ _ _); congruence.
Qed.

Lemma ro_print v : raises_only (eq IndexError) (print v).
Proof. by intros c c' e. Qed.

(** [ro] splits a method body into its primitives. *)
Ltac ro :=
  munfold;
  repeat first
    [ apply ro_bind; [|intros ?]
    | case_decide
    | apply ro_get_reg | apply ro_set_reg | apply ro_get_int
    | apply ro_set_int | apply ro_ram_read | apply ro_ram_write
    | apply ro_print | apply ro_mreturn ].

(** Every handler of the dispatch dictionary, called with its own opcode,
    raises nothing but [IndexError]. *)
Lemma ro_dispatch op h a b :
  dispatch !! op = Some h -> raises_only (eq IndexError) (h op a b).
Proof.
  intros Hh. apply dispatch_inv in Hh.
  repeat (apply elem_of_cons in Hh as [[= -> ->] | Hh];
          [ first [ unfold nop | unfold ldi | unfold prn | unfold push
                  | unfold pop | unfold call | unfold ret | unfold jmp
                  | unfold jeq | unfold jne | unfold alu ]; by ro | ]).
  by apply elem_of_nil in Hh.
Qed.




(** X5. [alu] raises "Unsupported ALU operation" exactly when its opcode is
    none of ADD, MUL and CMP, and then before touching anything: the
    machine is left as it was, whatever the register operands. *)
Theorem X5_alu_unsupported (op a b : Z) (c : CPU) :
  ((alu op a b c).2 = Raise UnsupportedALU <->
   op <> ADD /\ op <> MUL /\ op <> CMP) /\
  ((alu op a b c).2 = Raise UnsupportedALU -> (alu op a b c).1 = c).
Proof.
  assert (Hro : op = ADD \/ op = MUL \/ op = CMP ->
                (alu op a b c).2 <> Raise UnsupportedALU).
  { intros Hop Habs.
    assert (Hd : exists h, dispatch !! op = Some h /\ h = alu)
      by (destruct Hop as [-> | [-> | ->]]; by eexists).
    destruct Hd as (h & Hh & ->).
    destruct (alu op a b c) as [c' r] eqn:E. cbn in Habs. subst r.
    by pose proof (ro_dispatch op alu a b Hh _ _ _ E). }
  assert (Hun : op <> ADD /\ op <> MUL /\ op <> CMP ->
                alu op a b c = (c, Raise UnsupportedALU)).
  { intros (H1 & H2 & H3). unfold alu. by rewrite !decide_False. }
  split; [split|].
  - intros Habs.
    destruct (decide (op = ADD)) as [->|]; [exfalso; apply Hro; auto|].
    destruct (decide (op = MUL)) as [->|]; [exfalso; apply Hro; auto|].
    destruct (decide (op = CMP)) as [->|]; [exfalso; apply Hro; auto|].
    done.
  - intros H. by rewrite Hun.
  - intros Habs.
    destruct (decide (op = ADD)) as [->|]; [exfalso; apply Hro; auto|].
    destruct (decide (op = MUL)) as [->|]; [exfalso; apply Hro; auto|].
    destruct (decide (op = CMP)) as [->|]; [exfalso; apply Hro; auto|].
    by rewrite Hun.
Qed.

(** * Single turns of the loop *)

(** A turn whose three fetches succeed on an opcode that has a handler. *)
Lemma step_fetch regs p i ma md f cells out op a b h :
  Py.getitem cells p = Some op ->
  Py.getitem cells (p + 1) = Some a ->
  Py.getitem cells (p + 2) = Some b ->
  op <> HLT -> dispatch !! op = Some h ->
  step (mkCPU regs [p; i; ma; md; f] cells out) =
  bind (h op a b) (fun _ => mreturn true)
       (mkCPU regs [p; op; ma; md; f] cells out).
Proof.
  intros Hop Ha Hb Hne Hh. rewrite step_mk, Hop, Ha, Hb. cbv zeta.
  rewrite decide_False by done. by rewrite Hh.
Qed.

Lemma cells_get_in cells a :
  length cells = 256%nat -> -256 <= a < 256 ->
  exists v, Py.getitem cells a = Some v.
Proof. intros H Ha. apply PyFacts.getitem_in. rewrite H. lia. Qed.

(** X6. The loop fetches the opcode and both operand bytes before it looks
    at the opcode.  So with PC at 254 or above (or below -256) the turn
    raises [IndexError] whatever the opcode is, HLT and NOP included: a
    program cannot halt on a HLT in the last two memory cells.  PC, the
    general registers, the flags, the memory and the output are as
    before. *)
Theorem X6_fetch_past_end_raises (n : nat) (c : CPU) (p : Z) :
  wf c -> pc_of c = Some p -> p < -256 \/ 254 <= p ->
  exists c',
    run (S n) c = (c', Raised IndexError) /\
    pc_of c' = Some p /\ fl_of c' = fl_of c /\
    registers c' = registers c /\ ram c' = ram c /\ stdout c' = stdout c.
Proof.
  intros Hwf Hp Hout. wf_open Hwf. rewrite run_S, step_mk.
  destruct (Py.getitem cells p) as [op|] eqn:Hop; [|by eexists].
  assert (Hin : -256 <= p < 256).
  { pose proof (PyFacts.getitem_out cells p) as H. rewrite Hcells in H.
    destruct (decide (-256 <= p < 256)); [done|].
    rewrite H in Hop by lia. done. }
  assert (Hb : Py.getitem cells (p + 2) = None)
    by (apply PyFacts.getitem_out; rewrite Hcells; lia).
  rewrite Hb. cbv zeta.
  destruct (Py.getitem cells (p + 1)); by eexists.
Qed.

(** HLT as the last byte of a full memory image. *)
Lemma X6_fetch_past_end_raises_witness :
  exists c',
    run 1 (mkCPU (registers init) [255; 0; 0; 0; 0]
                 (replicate 255 0 ++ [HLT]) []) = (c', Raised IndexError) /\
    pc_of c' = Some 255 /\
    fl_of c' = fl_of (mkCPU (registers init) [255; 0; 0; 0; 0]
                            (replicate 255 0 ++ [HLT]) []) /\
    registers c' = registers init /\
    ram c' = replicate 255 0 ++ [HLT] /\ stdout c' = [].
Proof.
  apply (X6_fetch_past_end_raises 0
           (mkCPU (registers init) [255; 0; 0; 0; 0]
                  (replicate 255 0 ++ [HLT]) []) 255);
    [by repeat split | reflexivity | lia].
Defined.

(** X7. With PC at an address [p] from -256 to 253 holding HLT, the run
    stops at once: it ends as halted, IR holds HLT, PC still points at the
    HLT (it is not advanced), and registers, flags, memory and output are
    as before. *)
Theorem X7_hlt_stops_in_place (n : nat) (c : CPU) (p : Z) :
  wf c -> pc_of c = Some p -> -256 <= p < 254 -> mem c p = Some HLT ->
  exists c',
    run (S n) c = (c', Halted) /\
    pc_of c' = Some p /\ ir_of c' = Some HLT /\ fl_of c' = fl_of c /\
    registers c' = registers c /\ ram c' = ram c /\ stdout c' = stdout c.
Proof.
  intros Hwf Hp Hin Hop. wf_open Hwf.
  destruct (cells_get_in cells (p + 1) Hcells) as [a Ha]; [lia|].
  destruct (cells_get_in cells (p + 2) Hcells) as [b Hb]; [lia|].
  rewrite run_S, step_mk, Hop, Ha, Hb. cbv zeta.
  rewrite decide_True by done. by eexists.
Qed.

(** The one-byte program HLT. *)
Lemma X7_hlt_stops_in_place_witness :
  exists c',
    run 1 (boot [HLT]) = (c', Halted) /\
    pc_of c' = Some 0 /\ ir_of c' = Some HLT /\
    fl_of c' = fl_of (boot [HLT]) /\
    registers c' = registers (boot [HLT]) /\
    ram c' = ram (boot [HLT]) /\ stdout c' = stdout (boot [HLT]).
Proof.
  apply (X7_hlt_stops_in_place 0 (boot [HLT]) 0);
    [apply wf_boot | reflexivity | lia | reflexivity].
Defined.

(** X8. A whole turn on LDI: with the bytes LDI, [r], [v] at PC and [r] in
    0..7, the turn stores [v], exactly as the memory cell holds it, in
    register [r], leaves the other registers, the flags, the memory and
    the output alone, puts LDI in IR and advances PC by 3. *)
Theorem X8_turn_ldi (c : CPU) (p r v : Z) :
  wf c -> pc_of c = Some p ->
  mem c p = Some LDI -> mem c (p + 1) = Some r -> mem c (p + 2) = Some v ->
  0 <= r < 8 ->
  exists c',
    step c = (c', Ok true) /\
    reg c' r = Some v /\
    (forall j, 0 <= j < 8 -> j <> r -> reg c' j = reg c j) /\
    pc_of c' = Some (p + 3) /\ ir_of c' = Some LDI /\ fl_of c' = fl_of c /\
    ram c' = ram c /\ stdout c' = stdout c.
Proof.
  intros Hwf Hp Hop Ha Hb Hr. wf_open Hwf.
  destruct (reg_set_in regs r v) as (regs1 & E1 & L1); [done | lia |].
  eexists. split.
  { erewrite step_fetch; [|exact Hop|exact Ha|exact Hb|done|reflexivity].
    eapply bind_ok; [by eapply ldi_mk | reflexivity]. }
  cbn [registers ram stdout].
  split; [exact (PyFacts.getitem_setitem_eq _ _ _ _ E1)|].
  split; [|done].
  intros j Hj Hne. exact (reg_set_other _ _ _ _ _ Hregs Hr Hj Hne E1).
Qed.

(** The first turn of LDI R0 250; LDI R1 10; ADD R0 R1; HLT. *)
Lemma X8_turn_ldi_witness :
  exists c',
    step (boot prog_add_250_10) = (c', Ok true) /\
    reg c' 0 = Some 250 /\
    (forall j, 0 <= j < 8 -> j <> 0 -> reg c' j = reg (boot prog_add_250_10) j) /\
    pc_of c' = Some (0 + 3) /\ ir_of c' = Some LDI /\
    fl_of c' = fl_of (boot prog_add_250_10) /\
    ram c' = ram (boot prog_add_250_10) /\
    stdout c' = stdout (boot prog_add_250_10).
Proof.
  apply (X8_turn_ldi (boot prog_add_250_10) 0 0 250);
    [apply wf_boot | reflexivity | reflexivity | reflexivity | reflexivity | lia].
Defined.



(** X10. A whole turn on NOP, with PC at an address from -256 to 253:
    PC advances by 1, IR holds NOP, nothing else changes. *)
Theorem X10_turn_nop (c : CPU) (p : Z) :
  wf c -> pc_of c = Some p -> -256 <= p < 254 -> mem c p = Some NOP ->
  exists c',
    step c = (c', Ok true) /\
    pc_of c' = Some (p + 1) /\ ir_of c' = Some NOP /\ fl_of c' = fl_of c /\
    registers c' = registers c /\ ram c' = ram c /\ stdout c' = stdout c.
Proof.
  intros Hwf Hp Hin Hop. wf_open Hwf.
  destruct (cells_get_in cells (p + 1) Hcells) as [a Ha]; [lia|].
  destruct (cells_get_in cells (p + 2) Hcells) as [b Hb]; [lia|].
  eexists. split.
  { erewrite step_fetch; [|exact Hop|exact Ha|exact Hb|done|reflexivity].
    eapply bind_ok; [by eapply nop_mk | reflexivity]. }
  done.
Qed.

(** A fresh machine: its memory is all zero, and 0 is NOP. *)
Lemma X10_turn_nop_witness :
  exists c',
    step init = (c', Ok true) /\
    pc_of c' = Some (0 + 1) /\ ir_of c' = Some NOP /\
    fl_of c' = fl_of init /\
    registers c' = registers init /\ ram c' = ram init /\
    stdout c' = stdout init.
Proof.
  apply (X10_turn_nop init 0); [apply wf_init | reflexivity | lia | reflexivity].
Defined.

(** X11. A whole turn on JMP: with the bytes JMP, [r] at PC, [r] in 0..7
    and the fetch of PC + 2 in range, PC becomes the value of register
    [r], whatever integer that is (it is not checked to be an address), IR
    holds JMP and nothing else changes. *)
Theorem X11_turn_jmp (c : CPU) (p r t : Z) :
  wf c -> pc_of c = Some p -> -256 <= p + 2 < 256 ->
  mem c p = Some JMP -> mem c (p + 1) = Some r ->
  0 <= r < 8 -> reg c r = Some t ->
  exists c',
    step c = (c', Ok true) /\
    pc_of c' = Some t /\ ir_of c' = Some JMP /\ fl_of c' = fl_of c /\
    registers c' = registers c /\ ram c' = ram c /\ stdout c' = stdout c.
Proof.
  intros Hwf Hp Hin Hop Ha Hr Ht. wf_open Hwf.
  destruct (cells_get_in cells (p + 2) Hcells) as [b Hb]; [lia|].
  eexists. split.
  { erewrite step_fetch; [|exact Hop|exact Ha|exact Hb|done|reflexivity].
    eapply bind_ok; [by eapply jmp_mk | reflexivity]. }
  done.
Qed.

(** JMP R7 as the first instruction: PC becomes 244. *)
Lemma X11_turn_jmp_witness :
  exists c',
    step (boot [JMP; 7]) = (c', Ok true) /\
    pc_of c' = Some 0xF4 /\ ir_of c' = Some JMP /\
    fl_of c' = fl_of (boot [JMP; 7]) /\
    registers c' = registers (boot [JMP; 7]) /\
    ram c' = ram (boot [JMP; 7]) /\ stdout c' = stdout (boot [JMP; 7]).
Proof.
  apply (X11_turn_jmp (boot [JMP; 7]) 0 7 0xF4);
    [ apply wf_boot | reflexivity | lia | reflexivity | reflexivity | lia
    | reflexivity ].
Defined.

(** * What a turn leaves alone *)

(** [frame_handler] proves that a handler keeps a property from the facts
    about the primitive writes it finds among the hypotheses; a handler
    whose opcode the hypotheses exclude is dismissed. *)
Ltac frame_handler :=
  first
    [ congruence
    | apply pres_nop; solve [eauto]
    | apply pres_ldi; solve [eauto]
    | apply pres_prn; solve [eauto]
    | apply pres_push; solve [eauto]
    | apply pres_pop; solve [eauto]
    | apply pres_call; solve [eauto]
    | apply pres_ret; solve [eauto]
    | apply pres_jmp; solve [eauto]
    | apply pres_jeq; solve [eauto]
    | apply pres_jne; solve [eauto]
    | apply pres_alu_cmp; solve [eauto]
    | apply pres_alu; solve [eauto | discriminate] ].

Ltac frame_dispatch Hh :=
  apply dispatch_inv in Hh;
  repeat (apply elem_of_cons in Hh as [[= -> ->] | Hh]; [frame_handler|]);
  by apply elem_of_nil in Hh.

(** X12. Only PUSH and CALL write to memory: a turn that fetches any other
    opcode, known or not, leaves all 256 cells as they were, however the
    turn ends.  A running program can change its own code only through the
    stack. *)
Theorem X12_only_push_call_write_memory (c : CPU) (op : Z) :
  wf c -> fetched c = Some op -> op <> PUSH -> op <> CALL ->
  ram (step c).1 = ram c.
Proof.
  intros Hwf Hf Hpush Hcall.
  pose (P := fun c' : CPU => ram c' = ram c).
  assert (Hint : forall i v, preserves P (set_int i v)).
  { intros i v c0 Hc0. unfold set_int. by destruct (Py.setitem _ _ _). }
  assert (Hreg : forall i v, preserves P (set_reg i v)).
  { intros i v c0 Hc0. unfold set_reg. by destruct (Py.setitem _ _ _). }
  assert (Hprint : forall v, preserves P (print v)) by (by intros v c0 Hc0).
  apply (step_via P); [done | apply Hint | | done].
  intros op' h a b Hf' Hh.
  assert (op' = op) as -> by congruence.
  frame_dispatch Hh.
Qed.

(** POP R0 as the first instruction. *)
Lemma X12_only_push_call_write_memory_witness :
  ram (step (boot [POP; 0; HLT])).1 = ram (boot [POP; 0; HLT]).
Proof.
  apply (X12_only_push_call_write_memory (boot [POP; 0; HLT]) POP);
    [apply wf_boot | reflexivity | discriminate | discriminate].
Defined.

(** X13. The general registers, the stack pointer among them, are written
    by LDI, PUSH, POP, CALL, RET, ADD and MUL only: a turn that fetches any
    other opcode (NOP, HLT, PRN, JMP, JEQ, JNE, CMP or a byte that is no
    opcode) leaves all eight as they were, however the turn ends. *)
Theorem X13_registers_written_by_seven_opcodes (c : CPU) (op : Z) :
  wf c -> fetched c = Some op ->
  op ∉ [LDI; PUSH; POP; CALL; RET; ADD; MUL] ->
  registers (step c).1 = registers c.
Proof.
  intros Hwf Hf Hnot.
  assert (op <> LDI /\ op <> PUSH /\ op <> POP /\ op <> CALL /\
          op <> RET /\ op <> ADD /\ op <> MUL)
    as (H1 & H2 & H3 & H4 & H5 & H6 & H7).
  { repeat split; intros ->; apply Hnot; repeat constructor. }
  pose (P := fun c' : CPU => registers c' = registers c).
  assert (Hint : forall i v, preserves P (set_int i v)).
  { intros i v c0 Hc0. unfold set_int. by destruct (Py.setitem _ _ _). }
  assert (Hram : forall v a, preserves P (ram_write v a)).
  { intros v a c0 Hc0. unfold ram_write. by destruct (Py.setitem _ _ _). }
  assert (Hprint : forall v, preserves P (print v)) by (by intros v c0 Hc0).
  apply (step_via P); [done | apply Hint | | done].
  intros op' h a b Hf' Hh.
  assert (op' = op) as -> by congruence.
  frame_dispatch Hh.
Qed.

(** CMP R0 R7 as the first instruction. *)
Lemma X13_registers_written_by_seven_opcodes_witness :
  registers (step (boot [CMP; 0; 7; HLT])).1 = registers (boot [CMP; 0; 7; HLT]).
Proof.
  apply (X13_registers_written_by_seven_opcodes (boot [CMP; 0; 7; HLT]) CMP);
    [apply wf_boot | reflexivity |].
  apply (bool_decide_unpack _). vm_compute. exact I.
Defined.

(** X14. Only PRN prints: a turn that fetches any other opcode leaves the
    output as it was, however the turn ends. *)
Theorem X14_only_prn_prints (c : CPU) (op : Z) :
  wf c -> fetched c = Some op -> op <> PRN ->
  stdout (step c).1 = stdout c.
Proof.
  intros Hwf Hf Hprn.
  pose (P := fun c' : CPU => stdout c' = stdout c).
  assert (Hint : forall i v, preserves P (set_int i v)).
  { intros i v c0 Hc0. unfold set_int. by destruct (Py.setitem _ _ _). }
  assert (Hreg : forall i v, preserves P (set_reg i v)).
  { intros i v c0 Hc0. unfold set_reg. by destruct (Py.setitem _ _ _). }
  assert (Hram : forall v a, preserves P (ram_write v a)).
  { intros v a c0 Hc0. unfold ram_write. by destruct (Py.setitem _ _ _). }
  apply (step_via P); [done | apply Hint | | done].
  intros op' h a b Hf' Hh.
  assert (op' = op) as -> by congruence.
  frame_dispatch Hh.
Qed.

(** LDI R0 250 as the first instruction. *)
Lemma X14_only_prn_prints_witness :
  stdout (step (boot prog_add_250_10)).1 = stdout (boot prog_add_250_10).
Proof.
  apply (X14_only_prn_prints (boot prog_add_250_10) LDI);
    [apply wf_boot | reflexivity | discriminate].
Defined.

(** X15. The output is append-only: whatever had been printed before a run
    is a prefix of what has been printed after it, however long the run
    and however it ends. *)
Theorem X15_output_append_only (n : nat) (c : CPU) :
  wf c -> stdout c `prefix_of` stdout (run n c).1.
Proof.
  intros Hwf.
  pose (P := fun c' : CPU => stdout c `prefix_of` stdout c').
  assert (Hint : forall i v, preserves P (set_int i v)).
  { intros i v c0 Hc0. unfold set_int. by destruct (Py.setitem _ _ _). }
  assert (Hreg : forall i v, preserves P (set_reg i v)).
  { intros i v c0 Hc0. unfold set_reg. by destruct (Py.setitem _ _ _). }
  assert (Hram : forall v a, preserves P (ram_write v a)).
  { intros v a c0 Hc0. unfold ram_write. by destruct (Py.setitem _ _ _). }
  assert (Hprint : forall v, preserves P (print v)).
  { intros v c0 Hc0. unfold P in *. cbn.
    by apply prefix_app_r. }
  apply (pres_run P); [|done|by unfold P].
  intros c0 Hwf0 Hc0. by apply pres_step_all.
Qed.

(** LDI R0 8; LDI R1 9; ADD R0 R1; PRN R0; HLT from a fresh machine. *)
Lemma X15_output_append_only_witness :
  stdout (boot [LDI; 0; 8; LDI; 1; 9; ADD; 0; 1; PRN; 0; HLT])
    `prefix_of`
  stdout (run 5 (boot [LDI; 0; 8; LDI; 1; 9; ADD; 0; 1; PRN; 0; HLT])).1.
Proof. apply X15_output_append_only. apply wf_boot. Defined.

(** A handler of the dispatch dictionary writes no internal register but PC
    and FL. *)
Lemma int_other_handler (k : Z) op h a b c :
  0 <= k -> k <> 0 -> k <> 4 -> dispatch !! op = Some h ->
  Py.getitem (int_registers (h op a b c).1) k = Py.getitem (int_registers c) k.
Proof.
  intros Hk H0 H4 Hh.
  pose (P := fun c' : CPU =>
               Py.getitem (int_registers c') k = Py.getitem (int_registers c) k).
  assert (Hint : forall i v, i = 0 \/ i = 4 -> preserves P (set_int i v)).
  { intros i v Hi c0 Hc0. unfold set_int.
    destruct (Py.setitem _ _ _) as [l|] eqn:E; [|done].
    unfold P in *. cbn. rewrite <- Hc0.
    eapply int_set_other; [| | |exact E]; lia. }
  assert (Hint0 : forall v, preserves P (set_int 0 v)) by (intros v; auto).
  assert (Hint4 : forall v, preserves P (set_int 4 v)) by (intros v; auto).
  assert (Hreg : forall i v, preserves P (set_reg i v)).
  { intros i v c0 Hc0. unfold set_reg. by destruct (Py.setitem _ _ _). }
  assert (Hram : forall v a, preserves P (ram_write v a)).
  { intros v0 a0 c0 Hc0. unfold ram_write. by destruct (Py.setitem _ _ _). }
  assert (Hprint : forall v, preserves P (print v)) by (by intros v c0 Hc0).
  assert (Hpres : preserves P (h op a b)).
  { destruct (decide (op = CMP)) as [->|Hne].
    - assert (E : dispatch !! CMP = Some alu) by reflexivity.
      pose proof (eq_trans (eq_sym Hh) E) as [= ->].
      by apply pres_alu_cmp.
    - by eapply pres_dispatch. }
  by apply Hpres.
Qed.

(** X16. Once the opcode at PC has been fetched, IR holds it at the end of
    the turn, however the turn ends (an operand fetch that raises, HLT, a
    missing handler, a handler that returns or raises): no handler writes
    IR. *)
Theorem X16_ir_holds_fetched_opcode (c : CPU) (op : Z) :
  wf c -> fetched c = Some op -> ir_of (step c).1 = Some op.
Proof.
  intros Hwf Hf. wf_open Hwf. rewrite step_mk.
  change (Py.getitem cells pc0 = Some op) in Hf. rewrite Hf. cbv zeta.
  destruct (Py.getitem cells (pc0 + 1)) as [a|]; [|done].
  destruct (Py.getitem cells (pc0 + 2)) as [b|]; [|done].
  case_decide; [done|].
  destruct (dispatch !! op) as [h|] eqn:Hh; [|done].
  unfold bind.
  pose proof (int_other_handler 1 op h a b
                (mkCPU regs [pc0; op; mar0; mdr0; fl0] cells out)
                ltac:(lia) ltac:(lia) ltac:(lia) Hh) as Hir.
  destruct (h op a b _) as [c' [[]|e]]; exact Hir.
Qed.

(** PUSH with register operand 8: the handler raises, IR holds PUSH. *)
Lemma X16_ir_holds_fetched_opcode_witness :
  ir_of (step (boot prog_push_reg8)).1 = Some PUSH.
Proof.
  apply (X16_ir_holds_fetched_opcode (boot prog_push_reg8) PUSH);
    [apply wf_boot | reflexivity].
Defined.

(** X17. No turn limit: with the bytes JMP, [r] at PC and register [r]
    holding that same address, the loop never ends; after any number of
    turns it is still running, with PC where it was. *)
Theorem X17_jmp_to_itself_runs_forever (n : nat) (c : CPU) (p r : Z) :
  wf c -> pc_of c = Some p -> -256 <= p + 2 < 256 ->
  mem c p = Some JMP -> mem c (p + 1) = Some r ->
  0 <= r < 8 -> reg c r = Some p ->
  (run n c).2 = Running /\ pc_of (run n c).1 = Some p.
Proof.
  intros Hwf Hp Hin Hop Ha Hr Ht. wf_open Hwf.
  destruct (cells_get_in cells (p + 2) Hcells) as [b Hb]; [lia|].
  clear Hwf. revert ir0. induction n as [|n IH]; intros ir0; [done|].
  rewrite run_S.
  erewrite step_fetch; [|exact Hop|exact Ha|exact Hb|done|reflexivity].
  erewrite bind_ok; [|by eapply jmp_mk|reflexivity].
  apply IH.
Qed.

(** JMP R0 at address 0 of a fresh machine, R0 = 0. *)
Lemma X17_jmp_to_itself_runs_forever_witness :
  (run 1000 (boot [JMP; 0])).2 = Running /\
  pc_of (run 1000 (boot [JMP; 0])).1 = Some 0.
Proof.
  apply (X17_jmp_to_itself_runs_forever 1000 (boot [JMP; 0]) 0 0);
    [ apply wf_boot | reflexivity | lia | reflexivity | reflexivity | lia
    | reflexivity ].
Defined.

(** * Stack and memory, continued *)

(** X18. PUSH r followed by POP d, for [r] and [d] in 0..6 and the slot
    [sp0 - 1] a valid subscript, copies register [r] into register [d]:
    [d] ends with the value of [r], SP is back at [sp0], every other
    register of R0..R6 is untouched, PC has advanced by 4, and the popped
    value is still in the memory cell below SP (POP does not clear it). *)
Theorem X18_push_pop_copies (c : CPU) (r d x sp0 p b1 b2 : Z) :
  wf c -> 0 <= r < 7 -> 0 <= d < 7 ->
  reg c r = Some x -> sp_of c = Some sp0 -> pc_of c = Some p ->
  -256 <= sp0 - 1 < 256 ->
  exists c',
    (push PUSH r b1 ;;; pop POP d b2) c = (c', Ok tt) /\
    reg c' d = Some x /\ sp_of c' = Some sp0 /\
    (forall j, 0 <= j < 7 -> j <> d -> reg c' j = reg c j) /\
    mem c' (sp0 - 1) = Some x /\ pc_of c' = Some (p + 2 + 2).
Proof.
  intros Hwf Hr Hd Hx Hsp Hp Hin. wf_open Hwf.
  assert (H7 : 0 <= 7 < 8) by lia.
  assert (Hr8 : 0 <= r < 8) by lia.
  assert (Hd8 : 0 <= d < 8) by lia.
  (* PUSH r *)
  destruct (reg_set_in regs 7 (sp0 + -1)) as (regs1 & E1 & L1); [done | lia |].
  pose proof (PyFacts.getitem_setitem_eq _ _ _ _ E1) as S1.
  assert (O1 : forall j, 0 <= j < 7 -> Py.getitem regs1 j = Py.getitem regs j).
  { intros j Hj. eapply reg_set_other; [exact Hregs | | | | exact E1]; lia. }
  pose proof (O1 r Hr) as V1. rewrite Hx in V1.
  destruct (PyFacts.setitem_in cells (sp0 + -1) x) as [cells' W];
    [rewrite Hcells; lia|].
  pose proof (PyFacts.getitem_setitem_eq _ _ _ _ W) as R.
  (* POP d *)
  destruct (reg_set_in regs1 d x) as (regs2 & E2 & L2); [done | lia |].
  pose proof (PyFacts.getitem_setitem_eq _ _ _ _ E2) as V2.
  assert (O2 : forall j, 0 <= j < 8 -> j <> d ->
                 Py.getitem regs2 j = Py.getitem regs1 j).
  { intros j Hj Hne. exact (reg_set_other _ _ _ _ _ L1 Hd8 Hj Hne E2). }
  pose proof (O2 7 H7 ltac:(lia)) as S2. rewrite S1 in S2.
  destruct (reg_set_in regs2 7 (sp0 + -1 + 1)) as (regs3 & E3 & L3);
    [done | lia |].
  pose proof (PyFacts.getitem_setitem_eq _ _ _ _ E3) as S3.
  assert (O3 : forall j, 0 <= j < 7 -> Py.getitem regs3 j = Py.getitem regs2 j).
  { intros j Hj. eapply reg_set_other; [exact L2 | | | | exact E3]; lia. }
  eexists. split.
  { eapply bind_ok; [eapply push_mk; [exact Hsp | exact E1 | exact V1 | exact W]
                    | cbv beta].
    eapply pop_mk; [exact S1 | exact R | exact E2 | exact S2 | exact E3]. }
  cbn [registers ram].
  split; [by rewrite (O3 d Hd)|].
  split; [rewrite S3; f_equal; lia|].
  split; [|by split].
  intros j Hj Hne. rewrite (O3 j Hj), (O2 j) by lia. by apply O1.
Qed.

(** PUSH R0; POP R1 on a fresh machine. *)
Lemma X18_push_pop_copies_witness :
  exists c',
    (push PUSH 0 0 ;;; pop POP 1 0) init = (c', Ok tt) /\
    reg c' 1 = Some 0 /\ sp_of c' = Some 0xF4 /\
    (forall j, 0 <= j < 7 -> j <> 1 -> reg c' j = reg init j) /\
    mem c' (0xF4 - 1) = Some 0 /\ pc_of c' = Some (0 + 2 + 2).
Proof.
  apply (X18_push_pop_copies init 0 1 0 0xF4 0 0 0);
    [ apply wf_init | lia | lia | reflexivity | reflexivity | reflexivity
    | lia ].
Defined.

(** X19. R7 as the operand of PUSH and POP.  PUSH R7 stores the stack
    pointer after its decrement, [sp0 - 1], in the cell [sp0 - 1].  POP R7
    loads the cell at SP into R7 and then adds 1 to it, so SP ends one
    above the value popped, not at the value popped. *)
Theorem X19_push_pop_r7 (c : CPU) (sp0 v b : Z) :
  wf c -> sp_of c = Some sp0 ->
  -256 <= sp0 - 1 < 256 -> mem c sp0 = Some v ->
  (exists c',
     push PUSH 7 b c = (c', Ok tt) /\
     sp_of c' = Some (sp0 - 1) /\ mem c' (sp0 - 1) = Some (sp0 - 1)) /\
  (exists c',
     pop POP 7 b c = (c', Ok tt) /\ sp_of c' = Some (v + 1) /\ ram c' = ram c).
Proof.
  intros Hwf Hsp Hin Hv. wf_open Hwf. split.
  - destruct (reg_set_in regs 7 (sp0 + -1)) as (regs1 & E1 & L1);
      [done | lia |].
    pose proof (PyFacts.getitem_setitem_eq _ _ _ _ E1) as S1.
    destruct (PyFacts.setitem_in cells (sp0 + -1) (sp0 + -1)) as [cells' W];
      [rewrite Hcells; lia|].
    eexists. split; [eapply push_mk; eassumption|].
    split; [exact S1|]. exact (PyFacts.getitem_setitem_eq _ _ _ _ W).
  - destruct (reg_set_in regs 7 v) as (regs1 & E1 & L1); [done | lia |].
    pose proof (PyFacts.getitem_setitem_eq _ _ _ _ E1) as S1.
    destruct (reg_set_in regs1 7 (v + 1)) as (regs2 & E2 & L2); [done | lia |].
    eexists. split; [eapply pop_mk; eassumption|].
    split; [|done]. exact (PyFacts.getitem_setitem_eq _ _ _ _ E2).
Qed.

(** A fresh machine: SP = 244 and cell 244 holds 0. *)
Lemma X19_push_pop_r7_witness :
  (exists c',
     push PUSH 7 0 init = (c', Ok tt) /\
     sp_of c' = Some (0xF4 - 1) /\ mem c' (0xF4 - 1) = Some (0xF4 - 1)) /\
  (exists c',
     pop POP 7 0 init = (c', Ok tt) /\ sp_of c' = Some (0 + 1) /\
     ram c' = ram init).
Proof.
  apply (X19_push_pop_r7 init 0xF4 0 0);
    [apply wf_init | reflexivity | lia | reflexivity].
Defined.

(** Two subscripts of a list of 256 cells name one cell exactly when they
    are congruent modulo 256. *)
Lemma index_256_eq a b :
  -256 <= a < 256 -> -256 <= b < 256 ->
  (Py.index 256 a = Py.index 256 b <-> (b - a) mod 256 = 0).
Proof.
  intros Ha Hb. unfold Py.index. change (Z.of_nat 256) with 256.
  repeat case_decide; try lia.
  all: split;
    [ intros [= E]; Z.div_mod_to_equations; lia
    | intros E; f_equal; Z.div_mod_to_equations; lia ].
Qed.

(** X20. Memory as a store: for an address [a] from -256 to 255,
    [ram_write v a] returns normally, and afterwards [ram_read] gives [v]
    at every address that names the same cell ([a], and [a + 256] or
    [a - 256] when that is an address) and the old content at every other
    address; registers, internal registers and output are untouched. *)
Theorem X20_ram_write_then_read (c : CPU) (a v : Z) :
  wf c -> -256 <= a < 256 ->
  exists c',
    ram_write v a c = (c', Ok tt) /\
    ram_read a c' = (c', Ok v) /\
    (forall b, -256 <= b < 256 -> (b - a) mod 256 = 0 -> mem c' b = Some v) /\
    (forall b, -256 <= b < 256 -> (b - a) mod 256 <> 0 -> mem c' b = mem c b) /\
    registers c' = registers c /\ int_registers c' = int_registers c /\
    stdout c' = stdout c /\ wf c'.
Proof.
  intros Hwf Ha. wf_open Hwf.
  destruct (PyFacts.setitem_in cells a v) as [cells' W]; [rewrite Hcells; lia|].
  pose proof (PyFacts.getitem_setitem_eq _ _ _ _ W) as R.
  pose proof (PyFacts.length_setitem _ _ _ _ W) as L.
  exists (mkCPU regs [pc0; ir0; mar0; mdr0; fl0] cells' out).
  split; [by apply ram_write_mk|].
  split; [by apply ram_read_mk|].
  cbn [ram registers int_registers stdout].
  split; [|split; [|repeat split; try done; cbn; congruence]].
  - intros b Hb Hm.
    apply (index_256_eq a b Ha Hb) in Hm.
    unfold Py.getitem in *. rewrite L, Hcells in *. by rewrite <- Hm.
  - intros b Hb Hm. eapply PyFacts.getitem_setitem_ne; [exact W|].
    rewrite Hcells. intros E. by apply (index_256_eq a b Ha Hb) in E.
Qed.

(** Writing 42 at address -1 of a fresh machine. *)
Lemma X20_ram_write_then_read_witness :
  exists c',
    ram_write 42 (-1) init = (c', Ok tt) /\
    ram_read (-1) c' = (c', Ok 42) /\
    (forall b, -256 <= b < 256 -> (b - -1) mod 256 = 0 -> mem c' b = Some 42) /\
    (forall b, -256 <= b < 256 -> (b - -1) mod 256 <> 0 ->
       mem c' b = mem init b) /\
    registers c' = registers init /\ int_registers c' = int_registers init /\
    stdout c' = stdout init /\ wf c'.
Proof.
  apply (X20_ram_write_then_read init (-1) 42); [apply wf_init | lia].
Defined.

(** * Compare and branch *)

(** X21. CMP followed by a conditional jump is a branch on equality: after
    CMP a b, JEQ r jumps to [registers[r]] when [registers[a]] equals
    [registers[b]] and falls through (PC is 5 past the CMP) when it does
    not, and JNE r does the opposite; the less-than and greater-than flags
    both count as "not equal".  No general register changes. *)
Theorem X21_cmp_then_branch (c : CPU) (a b r x y t p z : Z) :
  wf c -> 0 <= a < 8 -> 0 <= b < 8 -> 0 <= r < 8 ->
  reg c a = Some x -> reg c b = Some y -> reg c r = Some t ->
  pc_of c = Some p ->
  (exists c',
     (alu CMP a b ;;; jeq JEQ r z) c = (c', Ok tt) /\
     pc_of c' = Some (if decide (x = y) then t else p + 3 + 2) /\
     registers c' = registers c) /\
  (exists c',
     (alu CMP a b ;;; jne JNE r z) c = (c', Ok tt) /\
     pc_of c' = Some (if decide (x = y) then p + 3 + 2 else t) /\
     registers c' = registers c).
Proof.
  intros Hwf Ha Hb Hr Hx Hy Ht Hp. wf_open Hwf.
  pose proof (alu_cmp_mk regs cells out p ir0 mar0 mdr0 fl0 a b x y Hx Hy)
    as Hcmp.
  destruct (decide (x = y)) as [E|E];
    [|destruct (decide (x < y)) as [L|L]];
    (split; eexists;
     (split;
      [ eapply bind_ok; [exact Hcmp | cbv beta];
        rewrite ?jeq_mk, ?jne_mk, Ht; reflexivity
      | by split ])).
Qed.

(** CMP R0 R7 on a fresh machine (0 against 244), branching to R7. *)
Lemma X21_cmp_then_branch_witness :
  (exists c',
     (alu CMP 0 7 ;;; jeq JEQ 7 0) init = (c', Ok tt) /\
     pc_of c' = Some (0 + 3 + 2) /\ registers c' = registers init) /\
  (exists c',
     (alu CMP 0 7 ;;; jne JNE 7 0) init = (c', Ok tt) /\
     pc_of c' = Some 0xF4 /\ registers c' = registers init).
Proof.
  apply (X21_cmp_then_branch init 0 7 7 0 0xF4 0xF4 0 0);
    [ apply wf_init | lia | lia | lia | reflexivity | reflexivity
    | reflexivity | reflexivity ].
Defined.

(** * Loading a program *)

Lemma load_from_app l1 l2 address c :
  load_from address (l1 ++ l2) c =
  bind (load_from address l1)
       (fun _ => load_from (address + Z.of_nat (length l1)) l2) c.
Proof.
  revert address c. induction l1 as [|x l1 IH]; intros address c.
  - cbn. by replace (address + Z.of_nat 0) with address by lia.
  - cbn [app load_from length]. unfold bind.
    destruct (ram_write x address c) as [c1 [[]|e]]; [|done].
    rewrite IH. unfold bind.
    by replace (address + 1 + Z.of_nat (length l1))
      with (address + Z.of_nat (S (length l1))) by lia.
Qed.

(** Loading at [address], within the 256 cells. *)
Lemma load_from_spec regs ints out program :
  forall address cells,
    length cells = 256%nat ->
    0 <= address -> address + Z.of_nat (length program) <= 256 ->
    exists cells',
      load_from address program (mkCPU regs ints cells out)
        = (mkCPU regs ints cells' out, Ok tt) /\
      length cells' = 256%nat /\
      (forall i, (i < length program)%nat ->
         Py.getitem cells' (address + Z.of_nat i) = program !! i) /\
      (forall a, 0 <= a < 256 ->
         ~ (address <= a < address + Z.of_nat (length program)) ->
         Py.getitem cells' a = Py.getitem cells a).
Proof.
  induction program as [|x rest IH]; intros address cells Hlen H0 Hfit.
  - exists cells. split; [done|]. split; [done|].
    split; [intros i Hi; cbn in Hi; lia | done].
  - cbn [length] in Hfit.
    destruct (PyFacts.setitem_in cells address x) as [cells1 W];
      [rewrite Hlen; lia|].
    pose proof (PyFacts.length_setitem _ _ _ _ W) as L1. rewrite Hlen in L1.
    destruct (IH (address + 1) cells1 L1) as (cells' & E & L' & Hin & Hout);
      [lia | lia |].
    exists cells'. split; [|split; [done|split]].
    + cbn [load_from]. eapply bind_ok; [by apply ram_write_mk | exact E].
    + intros [|i] Hi.
      * rewrite Z.add_0_r, Hout by lia.
        exact (PyFacts.getitem_setitem_eq _ _ _ _ W).
      * cbn [length] in Hi. replace (address + Z.of_nat (S i))
          with (address + 1 + Z.of_nat i) by lia.
        apply Hin. lia.
    + intros a Ha Hnot. cbn [length] in Hnot. rewrite Hout by lia.
      eapply PyFacts.getitem_setitem_ne; [exact W|].
      rewrite Hlen. apply PyFacts.index_nonneg_ne; lia.
Qed.

(** X22. [load] of a program of at most 256 entries returns normally;
    afterwards cell [i] holds entry [i] of the program, as the integer it
    is (entries are not checked to be bytes), for every [i] below the
    length, and every cell from the length on holds what it held before:
    [load] does not clear the rest of the memory.  Registers, internal
    registers and output are untouched. *)
Theorem X22_load_fits (c : CPU) (program : list Z) :
  wf c -> (length program <= 256)%nat ->
  exists c',
    load program c = (c', Ok tt) /\
    (forall i, (i < length program)%nat ->
       mem c' (Z.of_nat i) = program !! i) /\
    (forall a, Z.of_nat (length program) <= a < 256 -> mem c' a = mem c a) /\
    registers c' = registers c /\ int_registers c' = int_registers c /\
    stdout c' = stdout c.
Proof.
  intros Hwf Hfit. wf_open Hwf.
  destruct (load_from_spec regs [pc0; ir0; mar0; mdr0; fl0] out program
              0 cells Hcells) as (cells' & E & L & Hin & Hout); [lia | lia |].
  eexists. split; [exact E|]. cbn [ram registers int_registers stdout].
  split; [|split; [|done]].
  - intros i Hi. rewrite <- (Hin i Hi). f_equal.
  - intros a Ha. apply Hout; lia.
Qed.

(** Loading LDI R0 250; LDI R1 10; ADD R0 R1; HLT into a fresh machine. *)
Lemma X22_load_fits_witness :
  exists c',
    load prog_add_250_10 init = (c', Ok tt) /\
    (forall i, (i < length prog_add_250_10)%nat ->
       mem c' (Z.of_nat i) = prog_add_250_10 !! i) /\
    (forall a, Z.of_nat (length prog_add_250_10) <= a < 256 ->
       mem c' a = mem init a) /\
    registers c' = registers init /\ int_registers c' = int_registers init /\
    stdout c' = stdout init.
Proof.
  apply (X22_load_fits init prog_add_250_10); [apply wf_init|].
  vm_compute. lia.
Defined.

(** X23. [load] of a program of more than 256 entries raises [IndexError],
    and only after it has copied the first 256 entries: the whole memory
    has been overwritten when the exception leaves [load].  Registers,
    internal registers and output are untouched. *)
Theorem X23_load_too_long (c : CPU) (program : list Z) :
  wf c -> (256 < length program)%nat ->
  exists c',
    load program c = (c', Raise IndexError) /\
    (forall i, (i < 256)%nat -> mem c' (Z.of_nat i) = program !! i) /\
    registers c' = registers c /\ int_registers c' = int_registers c /\
    stdout c' = stdout c /\ wf c'.
Proof.
  intros Hwf Hlong. wf_open Hwf.
  pose proof (take_drop 256 program) as Hsplit.
  assert (Ltake : length (take 256 program) = 256%nat)
    by (rewrite length_take; lia).
  destruct (drop 256 program) as [|x rest] eqn:Hdrop.
  { assert (length (drop 256 program) = 0%nat) by (by rewrite Hdrop).
    rewrite length_drop in *. lia. }
  destruct (load_from_spec regs [pc0; ir0; mar0; mdr0; fl0] out
              (take 256 program) 0 cells Hcells)
    as (cells' & E & L & Hin & _); [lia | lia |].
  exists (mkCPU regs [pc0; ir0; mar0; mdr0; fl0] cells' out).
  split; [|split; [|by repeat split]].
  - unfold load. rewrite <- Hsplit, load_from_app.
    eapply bind_ok; [exact E|]. rewrite Ltake. cbn [load_from].
    eapply bind_raise. apply ram_write_mk_err.
    apply PyFacts.setitem_out. rewrite L. lia.
  - intros i Hi. cbn [ram].
    rewrite <- (lookup_take_lt program 256 i) by lia.
    rewrite <- (Hin i) by lia. f_equal.
Qed.

(** Loading 257 NOPs into a fresh machine. *)
Lemma X23_load_too_long_witness :
  exists c',
    load (replicate 257 NOP) init = (c', Raise IndexError) /\
    (forall i, (i < 256)%nat ->
       mem c' (Z.of_nat i) = replicate 257 NOP !! i) /\
    registers c' = registers init /\ int_registers c' = int_registers init /\
    stdout c' = stdout init /\ wf c'.
Proof.
  apply (X23_load_too_long init (replicate 257 NOP)); [apply wf_init|].
  vm_compute. lia.
Defined.

(** * Tracing *)

(** X24. [trace] never prints anything and never returns: its first format
    string has four conversions and is given six values.  On a well-formed
    machine with PC at [p] it raises [TypeError] ("not all arguments
    converted during string formatting") when [p] is from -256 to 253, and
    [IndexError], from one of the three memory reads that build the values,
    otherwise; either way nothing has been written and the machine is as
    it was. *)
Theorem X24_trace_always_raises (c : CPU) (p : Z) :
  wf c -> pc_of c = Some p ->
  trace c =
  (c, "",
   Some (if decide (-256 <= p < 254)
         then TypeError "not all arguments converted during string formatting"
         else CoreError IndexError)).
Proof.
  intros Hwf Hp. wf_open Hwf. unfold trace.
  case_decide as Hin.
  - destruct (cells_get_in cells p Hcells) as [m0 H0]; [lia|].
    destruct (cells_get_in cells (p + 1) Hcells) as [m1 H1]; [lia|].
    destruct (cells_get_in cells (p + 2) Hcells) as [m2 H2]; [lia|].
    assert (E : trace_args (mkCPU regs [p; ir0; mar0; mdr0; fl0] cells out)
                = (mkCPU regs [p; ir0; mar0; mdr0; fl0] cells out,
                   Ok [p; fl0; ir0; m0; m1; m2])).
    { unfold trace_args. munfold. repeat mstep. }
    rewrite E. reflexivity.
  - assert (E : trace_args (mkCPU regs [p; ir0; mar0; mdr0; fl0] cells out)
                = (mkCPU regs [p; ir0; mar0; mdr0; fl0] cells out,
                   Raise IndexError)).
    { unfold trace_args. munfold.
      destruct (Py.getitem cells p) as [m0|] eqn:H0; [|do 4 mstep; mfail].
      destruct (Py.getitem cells (p + 1)) as [m1|] eqn:H1;
        [|do 6 mstep; mfail].
      assert (H2 : Py.getitem cells (p + 2) = None).
      { apply PyFacts.getitem_out. rewrite Hcells.
        pose proof (PyFacts.getitem_out cells p) as F0.
        pose proof (PyFacts.getitem_out cells (p + 1)) as F1.
        rewrite Hcells in F0, F1.
        destruct (decide (p < -256 \/ 256 <= p)) as [Hbad|];
          [rewrite F0 in H0 by lia; done|].
        destruct (decide (p + 1 < -256 \/ 256 <= p + 1)) as [Hbad|];
          [rewrite F1 in H1 by lia; done|].
        lia. }
      do 8 mstep. mfail. }
    rewrite E. reflexivity.
Qed.

(** A fresh machine, PC = 0. *)
Lemma X24_trace_always_raises_witness :
  trace init =
  (init, "",
   Some (TypeError "not all arguments converted during string formatting")).
Proof.
  apply (X24_trace_always_raises init 0); [apply wf_init | reflexivity].
Defined.

(** * Whole programs *)





